(** * mes-systems: the simulation gateway (cw3) and the item service (cw4)

    A shallow embedding of the request handlers of [cw3/app] together
    with the mock provider of [cw3/app/dependencies.py], and of the item
    handlers of [cw4/main.py].

    Python integers are [Z].  Python floats are IEEE 754 binary64 numbers,
    represented by [spec_float] with precision 53 and maximal exponent
    1024; every float operation rounds to nearest, ties to even, exactly
    as the hardware does for CPython.  Dictionaries are [gmap]s.  A
    handler is a computation over the provider client it was handed and
    over the log of provider operations it performed; a Python exception
    is the [Raise] outcome of such a computation.

    Of a [logger] call only what can make it fail is kept: a replacement
    field of its f-string that prints an integer raises [ValueError] when
    the integer has more than 4300 decimal digits (the interpreter's
    default limit on integer string conversion), and a [:.2f] field
    converts its argument to a float first.  The text of the log lines is
    not kept.  The counter of a client and the length of a listing are
    taken to stay below that limit, so that [f"sim_{counter:04d}"] and
    [len(result)] always print. *)

From Stdlib Require Import ZArith QArith Ascii String List Lia Bool.
From Stdlib Require Import Floats.SpecFloat DecimalString DecimalPos DecimalN.
From stdpp Require Import gmap strings.

Local Open Scope Z_scope.

(** ** Python values, exceptions and arithmetic *)

Module Py.

(** The exceptions that the modelled code can raise. *)
Inductive exn : Type :=
| HTTPException (status_code : Z) (detail : string)
| OverflowError (msg : string)
| ValidationError (msg : string)
| ValueError (msg : string).

Inductive result (A : Type) : Type :=
| Ok (a : A)
| Raise (e : exn).
Arguments Ok {A} a.
Arguments Raise {A} e.

Definition rbind {A B} (r : result A) (k : A -> result B) : result B :=
  match r with
  | Ok a => k a
  | Raise e => Raise e
  end.

(** *** Integers as text *)

Fixpoint zeros (n : nat) : string :=
  match n with
  | O => EmptyString
  | S k => String "0"%char (zeros k)
  end.

Definition digits (n : N) : string := NilZero.string_of_uint (N.to_uint n).

(** The decimal numeral of an integer. *)
Definition decimal (z : Z) : string :=
  if z <? 0 then String "-"%char (digits (Z.abs_N z)) else digits (Z.abs_N z).

(** [format(n, "04d")]: sign-aware zero padding to width four. *)
Definition format_04d (n : Z) : string :=
  let ds := digits (Z.abs_N n) in
  if n <? 0 then
    String "-"%char (zeros (3 - String.length ds)%nat +:+ ds)
  else
    zeros (4 - String.length ds)%nat +:+ ds.

(** [sys.get_int_max_str_digits()], at its default. *)
Definition int_max_str_digits : Z := 4300.

(** The least magnitude that has more digits than that. *)
Definition digit_cap : Z := 10 ^ int_max_str_digits.

Definition digit_limit : exn :=
  ValueError ("Exceeds the limit (4300 digits) for integer string conversion; "
              +:+ "use sys.set_int_max_str_digits() to increase the limit").

(** [str(z)], as a replacement field [{z}] evaluates it: an integer of
    more than 4300 digits is not printed. *)
Definition str_int (z : Z) : result string :=
  if digit_cap <=? Z.abs z then Raise digit_limit else Ok (decimal z).

(** [str(e)] as the handlers interpolate it into their messages; an
    [HTTPException] prints as its status code and its detail. *)
Definition str_exn (e : exn) : string :=
  match e with
  | HTTPException code detail => decimal code +:+ ": " +:+ detail
  | OverflowError msg => msg
  | ValidationError msg => msg
  | ValueError msg => msg
  end.

(** *** binary64 *)

Definition prec : Z := 53.
Definition emax : Z := 1024.

(** The double nearest to [m * 2^e]. *)
Definition b64 (m e : Z) : spec_float := binary_normalize prec emax m e false.

Definition is_finite (f : spec_float) : bool :=
  match f with
  | S754_zero _ | S754_finite _ _ _ => true
  | S754_infinity _ | S754_nan => false
  end.

(** [float(z)] for a Python integer (CPython's [PyLong_AsDouble]): the
    nearest double, and [OverflowError] when that is not finite. *)
Definition float_of_int (z : Z) : result spec_float :=
  let f := b64 z 0 in
  if is_finite f then Ok f
  else Raise (OverflowError "int too large to convert to float").

Definition fits_float (z : Z) : bool :=
  match float_of_int z with
  | Ok _ => true
  | Raise _ => false
  end.

(** Exact comparison of a double with an integer, as [float_richcompare]
    performs it: no rounding of the integer is involved. *)
Definition float_cmp_int (f : spec_float) (z : Z) : option comparison :=
  match f with
  | S754_nan => None
  | S754_infinity s => Some (if s then Lt else Gt)
  | S754_zero _ => Some (0 ?= z)
  | S754_finite s m e =>
      let v := cond_Zopp s (Zpos m) in
      if 0 <=? e then Some (v * 2 ^ e ?= z)
      else Some (v ?= z * 2 ^ (- e))
  end.

(** The rational number a finite double stands for, in lowest terms. *)
Definition float_value (f : spec_float) : option Q :=
  match f with
  | S754_zero _ => Some (0 # 1)
  | S754_finite s m e =>
      let v := cond_Zopp s (Zpos m) in
      Some (Qred (if 0 <=? e then v * 2 ^ e # 1 else v # Z.to_pos (2 ^ (- e))))
  | S754_infinity _ | S754_nan => None
  end.

(** The state of the right shift of [m0] after [k] steps of [shr_1]: the
    mantissa is [m0] shifted by [k], the round bit is the last bit shifted
    out. *)
Definition shifted (m0 k : Z) (r : shr_record) : Prop :=
  shr_m r = Z.shiftr m0 k /\ (0 < k -> shr_r r = Z.testbit m0 (k - 1)).

(** *** Values *)

Inductive pyval : Type :=
| PyInt (z : Z)
| PyFloat (f : spec_float).

(** [a * b], [a + b], [a - b]: integer arithmetic is exact and unbounded;
    a mixed operation first converts the integer operand to a double. *)
Definition arith (iop : Z -> Z -> Z) (fop : spec_float -> spec_float -> spec_float)
           (a b : pyval) : result pyval :=
  match a, b with
  | PyInt x, PyInt y => Ok (PyInt (iop x y))
  | PyInt x, PyFloat g => rbind (float_of_int x) (fun f => Ok (PyFloat (fop f g)))
  | PyFloat f, PyInt y => rbind (float_of_int y) (fun g => Ok (PyFloat (fop f g)))
  | PyFloat f, PyFloat g => Ok (PyFloat (fop f g))
  end.

Definition mul : pyval -> pyval -> result pyval := arith Z.mul (SFmul prec emax).
Definition add : pyval -> pyval -> result pyval := arith Z.add (SFadd prec emax).
Definition sub : pyval -> pyval -> result pyval := arith Z.sub (SFsub prec emax).

Definition cmp (a b : pyval) : option comparison :=
  match a, b with
  | PyInt x, PyInt y => Some (x ?= y)
  | PyFloat f, PyInt y => float_cmp_int f y
  | PyInt x, PyFloat g => option_map CompOpp (float_cmp_int g x)
  | PyFloat f, PyFloat g => SFcompare f g
  end.

(** [a < b] and [a <= b]; both are [False] when a NaN is involved. *)
Definition lt (a b : pyval) : bool :=
  match cmp a b with Some Lt => true | _ => false end.
Definition le (a b : pyval) : bool :=
  match cmp a b with Some (Lt | Eq) => true | _ => false end.

(** The builtins [max(a, b)] and [min(a, b)]: the first argument is kept
    unless the second is strictly greater (resp. smaller). *)
Definition max (a b : pyval) : pyval := if lt a b then b else a.
Definition min (a b : pyval) : pyval := if lt b a then b else a.

(** Conversion to [float] where a float is expected (a pydantic [float]
    field, the [f] presentation type of a format spec). *)
Definition to_float (v : pyval) : result spec_float :=
  match v with
  | PyFloat f => Ok f
  | PyInt z => float_of_int z
  end.

(** *** Replacement fields of log lines *)

(** Evaluation of a field [{v}]: the text is not kept; an integer is
    printed in decimal, a float always prints. *)
Definition format_field (v : pyval) : result unit :=
  match v with
  | PyInt z => rbind (str_int z) (fun _ => Ok tt)
  | PyFloat _ => Ok tt
  end.

(** Evaluation of a field [{v:.2f}]: the text is not kept, but an integer
    argument is converted to a float first. *)
Definition format_2f (v : pyval) : result unit :=
  rbind (to_float v) (fun _ => Ok tt).

End Py.

(** ** cw3: the simulation gateway *)

Module Cw3.
Import Py.

(** Creation time of a response, [datetime.now()], read from the clock
    by the handler and handed to the model as an argument. *)
Definition datetime : Type := Z.

(** *** cw3/app/models.py *)

Module SimulationRequest.
Record t : Type := Build {
  server_capacity : Z;
  model_name : string;
  experiment_name : string
}.

(** The fields of a request body, when present. *)
Record body : Type := Body {
  body_server_capacity : option Z;
  body_model_name : option string;
  body_experiment_name : option string
}.

(** Validation of a body against the field declarations:
    [server_capacity] is required ([...]) and constrained by [gt=0];
    the two names have defaults. *)
Definition validate (b : body) : result t :=
  match body_server_capacity b with
  | None => Raise (ValidationError "Field required")
  | Some n =>
      if 0 <? n then
        Ok {| server_capacity := n;
              model_name := default "Service System Demo" (body_model_name b);
              experiment_name := default "Simulation" (body_experiment_name b) |}
      else Raise (ValidationError "Input should be greater than 0")
  end.
End SimulationRequest.

Module SimulationResponse.
Record t : Type := Build {
  simulation_id : string;
  server_capacity : Z;
  mean_queue_size : spec_float;
  server_utilization : spec_float;
  raw_outputs : gmap string pyval;
  status : string;
  timestamp : option datetime
}.

(** Validation of a value given for a field declared [float]: an integer
    is converted, and one that does not fit a float is refused. *)
Definition float_field (v : pyval) : result spec_float :=
  match to_float v with
  | Ok f => Ok f
  | Raise _ => Raise (ValidationError "Input should be a valid number")
  end.

(** The constructor call, which validates the two metrics as [float]
    fields. *)
Definition init (simulation_id : string) (server_capacity : Z)
           (mean_queue_size server_utilization : pyval)
           (raw_outputs : gmap string pyval) (status : string)
           (timestamp : option datetime) : result t :=
  rbind (float_field mean_queue_size) (fun q =>
  rbind (float_field server_utilization) (fun u =>
  Ok {| simulation_id := simulation_id;
        server_capacity := server_capacity;
        mean_queue_size := q;
        server_utilization := u;
        raw_outputs := raw_outputs;
        status := status;
        timestamp := timestamp |})).
End SimulationResponse.

Module ModelInfo.
Record t : Type := Build {
  id : string;
  name : string;
  latest_version_id : option string;
  version_name : option string;
  version_number : option Z
}.
End ModelInfo.

(** *** cw3/app/dependencies.py: the mock provider *)

Module MockModelVersion.
Record t : Type := Build {
  id : string;
  name : string;
  number : Z
}.

Definition init (model_id name : string) : t :=
  {| id := "version_" +:+ model_id; name := name; number := 1 |}.
End MockModelVersion.

Module MockModel.
(** [latest_version] is tested for truth by the handlers; [None] is
    Python's [None]. *)
Record t : Type := Build {
  id : string;
  name : string;
  latest_version : option MockModelVersion.t
}.

Definition init (model_id name : string) : t :=
  {| id := model_id; name := name;
     latest_version := Some (MockModelVersion.init model_id name) |}.
End MockModel.

Module MockInputs.
Record t : Type := Build { params : gmap string pyval }.

Definition init : t := {| params := ∅ |}.
End MockInputs.

Module MockOutputs.
Record t : Type := Build {
  server_capacity : pyval;
  data : gmap string pyval
}.

(** The literal [1.5]. *)
Definition f1_5 : spec_float := b64 3 (-1).

Definition init (server_capacity : pyval) : result t :=
  rbind (mul server_capacity (PyFloat f1_5)) (fun a =>
  rbind (sub (PyInt 10) a) (fun q =>
  rbind (mul server_capacity (PyInt 8)) (fun b =>
  rbind (add (PyInt 50) b) (fun u =>
  Ok {| server_capacity := server_capacity;
        data := <["Utilization|Server utilization" := min (PyInt 100) u]>
                (<["Mean queue size|Mean queue size" := max (PyInt 0) q]> ∅) |})))).

(** [self.data.get(key, 0.0)] *)
Definition value (self : t) (key : string) : pyval :=
  default (PyFloat (S754_zero false)) (data self !! key).

Definition get_raw_outputs (self : t) : gmap string pyval := data self.
End MockOutputs.

Module MockSimulation.
Record t : Type := Build {
  id : string;
  inputs : MockInputs.t
}.
End MockSimulation.

Module MockCloudClient.
Record t : Type := Build {
  api_key : string;
  _simulation_counter : Z
}.

Definition init (api_key : string) : t :=
  {| api_key := api_key; _simulation_counter := 0 |}.

(** The catalogue returned by [get_models]. *)
Definition models : list MockModel.t :=
  [ MockModel.init "model_1" "Service System Demo";
    MockModel.init "model_2" "Manufacturing Line Demo";
    MockModel.init "model_3" "Supply Chain Demo" ].
End MockCloudClient.

Definition get_cloud_client : MockCloudClient.t := MockCloudClient.init "DEMO_KEY".

(** *** Computations over the provider *)

(** The provider operations a handler may invoke. *)
Inductive provider_call : Type :=
| get_models_call
| get_latest_model_version_call (model_name : string)
| create_inputs_from_experiment_call (experiment_name : string)
| set_input_call (name : string) (value : pyval)
| create_simulation_call
| get_outputs_and_run_if_absent_call (simulation_id : string).

(** The client object a handler works on, and the provider operations
    performed so far, oldest first. *)
Record world : Type := World {
  client : MockCloudClient.t;
  calls : list provider_call
}.

Definition M (A : Type) : Type := world -> result A * world.

Definition ret {A} (a : A) : M A := fun w => (Ok a, w).
Definition raise {A} (e : exn) : M A := fun w => (Raise e, w).
Definition bind {A B} (m : M A) (k : A -> M B) : M B :=
  fun w =>
    match m w with
    | (Ok a, w') => k a w'
    | (Raise e, w') => (Raise e, w')
    end.
Definition lift {A} (r : result A) : M A := fun w => (r, w).

(** [try: body / except ... as e: handler e]; the effects of [body] up to
    the exception stay. *)
Definition try_except {A} (body : M A) (handler : exn -> M A) : M A :=
  fun w =>
    match body w with
    | (Ok a, w') => (Ok a, w')
    | (Raise e, w') => handler e w'
    end.

Definition invoke (c : provider_call) : M unit :=
  fun w => (Ok tt, {| client := client w; calls := calls w ++ [c] |}).

Notation "'let*' x ':=' m 'in' k" := (bind m (fun x => k))
  (at level 10, x pattern, m at level 100, k at level 200).

(** Methods of [MockCloudClient], [MockInputs] and [MockSimulation]. *)

Definition get_models : M (list MockModel.t) :=
  let* _ := invoke get_models_call in
  ret MockCloudClient.models.

Definition get_latest_model_version (model_name : string) : M MockModelVersion.t :=
  let* _ := invoke (get_latest_model_version_call model_name) in
  ret (MockModelVersion.init "latest" model_name).

Definition create_inputs_from_experiment (version : MockModelVersion.t)
           (experiment_name : string) : M MockInputs.t :=
  let* _ := invoke (create_inputs_from_experiment_call experiment_name) in
  ret MockInputs.init.

(** [self.params[name] = value], then the log line that prints the value.
    When that line raises, the store has been made, but no caller keeps the
    inputs then. *)
Definition set_input (self : MockInputs.t) (name : string) (value : pyval) : M MockInputs.t :=
  let* _ := invoke (set_input_call name value) in
  let inputs := {| MockInputs.params := <[name := value]> (MockInputs.params self) |} in
  let* _ := lift (format_field value) in
  ret inputs.

Definition create_simulation (inputs : MockInputs.t) : M MockSimulation.t :=
  let* _ := invoke create_simulation_call in
  fun w =>
    let counter := MockCloudClient._simulation_counter (client w) + 1 in
    let sim_id := "sim_" +:+ format_04d counter in
    (Ok {| MockSimulation.id := sim_id; MockSimulation.inputs := inputs |},
     {| client := {| MockCloudClient.api_key := MockCloudClient.api_key (client w);
                     MockCloudClient._simulation_counter := counter |};
        calls := calls w |}).

Definition get_outputs_and_run_if_absent (self : MockSimulation.t) : M MockOutputs.t :=
  let* _ := invoke (get_outputs_and_run_if_absent_call (MockSimulation.id self)) in
  let server_capacity :=
    default (PyInt 1) (MockInputs.params (MockSimulation.inputs self) !! "Server capacity") in
  lift (MockOutputs.init server_capacity).

(** *** cw3/app/routers/simulations.py *)

(** The handler.  Its first log line prints the capacity before the
    [try] statement begins, so an exception of that line leaves the handler
    as it is; the log lines inside the [try] that print the capacity again
    are kept in their places. *)
Definition run_simulation (request : SimulationRequest.t) (now : datetime)
  : M SimulationResponse.t :=
  let* _ := lift (format_field (PyInt (SimulationRequest.server_capacity request))) in
  try_except
    (let* _ :=
       (if SimulationRequest.server_capacity request <=? 0
        then
          let* _ :=
            lift (format_field (PyInt (SimulationRequest.server_capacity request))) in
          raise (HTTPException 400
                   "Количество серверов должно быть положительным числом")
        else ret tt) in
     let* version := get_latest_model_version (SimulationRequest.model_name request) in
     let* inputs :=
       create_inputs_from_experiment version (SimulationRequest.experiment_name request) in
     let* _ := lift (format_field (PyInt (SimulationRequest.server_capacity request))) in
     let* inputs :=
       set_input inputs "Server capacity" (PyInt (SimulationRequest.server_capacity request)) in
     let* simulation := create_simulation inputs in
     let* outputs := get_outputs_and_run_if_absent simulation in
     let mean_queue_size := MockOutputs.value outputs "Mean queue size|Mean queue size" in
     let server_utilization := MockOutputs.value outputs "Utilization|Server utilization" in
     let* _ := lift (format_2f mean_queue_size) in
     let* _ := lift (format_2f server_utilization) in
     lift (SimulationResponse.init
             (MockSimulation.id simulation)
             (SimulationRequest.server_capacity request)
             mean_queue_size
             server_utilization
             (MockOutputs.get_raw_outputs outputs)
             "completed"
             (Some now)))
    (fun e =>
       match e with
       | HTTPException _ _ => raise e
       | _ => raise (HTTPException 500
                ("Внутренняя ошибка при выполнении симуляции: " +:+ str_exn e))
       end).

(** One turn of the loop of the listing handler. *)
Definition model_info (include_versions : bool) (model : MockModel.t) : ModelInfo.t :=
  let model_info :=
    {| ModelInfo.id := MockModel.id model;
       ModelInfo.name := MockModel.name model;
       ModelInfo.latest_version_id :=
         match MockModel.latest_version model with
         | Some v => Some (MockModelVersion.id v)
         | None => None
         end;
       ModelInfo.version_name := None;
       ModelInfo.version_number := None |} in
  match include_versions, MockModel.latest_version model with
  | true, Some v =>
      {| ModelInfo.id := ModelInfo.id model_info;
         ModelInfo.name := ModelInfo.name model_info;
         ModelInfo.latest_version_id := ModelInfo.latest_version_id model_info;
         ModelInfo.version_name := Some (MockModelVersion.name v);
         ModelInfo.version_number := Some (MockModelVersion.number v) |}
  | _, _ => model_info
  end.

(** [for model in models: ... result.append(model_info)] *)
Definition collect_models (include_versions : bool) (models : list MockModel.t)
  : list ModelInfo.t :=
  fold_left (fun result model => result ++ [model_info include_versions model]) models [].

Definition get_models_handler (include_versions : bool) : M (list ModelInfo.t) :=
  try_except
    (let* models := get_models in
     ret (collect_models include_versions models))
    (fun e =>
       raise (HTTPException 500
                ("Не удалось получить список моделей: " +:+ str_exn e))).

(** [for model in models: if model.id == model_id: return ModelInfo(...)];
    [None] when the loop runs to its end. *)
Fixpoint scan_models (model_id : string) (models : list MockModel.t) : option ModelInfo.t :=
  match models with
  | [] => None
  | model :: rest =>
      if String.eqb (MockModel.id model) model_id then
        Some {| ModelInfo.id := MockModel.id model;
                ModelInfo.name := MockModel.name model;
                ModelInfo.latest_version_id :=
                  match MockModel.latest_version model with
                  | Some v => Some (MockModelVersion.id v)
                  | None => None
                  end;
                ModelInfo.version_name :=
                  match MockModel.latest_version model with
                  | Some v => Some (MockModelVersion.name v)
                  | None => None
                  end;
                ModelInfo.version_number :=
                  match MockModel.latest_version model with
                  | Some v => Some (MockModelVersion.number v)
                  | None => None
                  end |}
      else scan_models model_id rest
  end.

Definition get_model_by_id (model_id : string) : M ModelInfo.t :=
  try_except
    (let* models := get_models in
     match scan_models model_id models with
     | Some info => ret info
     | None =>
         raise (HTTPException 404 ("Модель с ID " +:+ model_id +:+ " не найдена"))
     end)
    (fun e =>
       match e with
       | HTTPException _ _ => raise e
       | _ => raise (HTTPException 500 ("Ошибка при поиске модели: " +:+ str_exn e))
       end).

(** *** The routes *)

(** What the caller of a route receives. *)
Inductive http_response (A : Type) : Type :=
| Http200 (payload : A)
| HttpError (status_code : Z) (detail : string).
Arguments Http200 {A} payload.
Arguments HttpError {A} status_code detail.

(** A request to a route gets a client of its own from
    [Depends(get_cloud_client)]. *)
Definition fresh_world : world := {| client := get_cloud_client; calls := [] |}.

(** Reading the JSON body: an integer literal of more than 4300 digits
    cannot be read ([int] raises [ValueError], under the same limit as
    printing), and the framework answers such a body 400. *)
Definition body_readable (b : SimulationRequest.body) : bool :=
  match SimulationRequest.body_server_capacity b with
  | Some n => negb (digit_cap <=? Z.abs n)
  | None => true
  end.

(** [POST /simulations/run]: the body is read (400 when it cannot be),
    then validated against [SimulationRequest] (a body that fails is
    answered 422); in neither case does the handler run.  Then the handler
    runs and an [HTTPException] becomes the response of its status code. *)
Definition post_run (b : SimulationRequest.body) (now : datetime)
  : http_response SimulationResponse.t * list provider_call :=
  if body_readable b then
    match SimulationRequest.validate b with
    | Raise e => (HttpError 422 (str_exn e), [])
    | Ok request =>
        match run_simulation request now fresh_world with
        | (Ok response, w) => (Http200 response, calls w)
        | (Raise (HTTPException code detail), w) => (HttpError code detail, calls w)
        | (Raise _, w) => (HttpError 500 "Internal Server Error", calls w)
        end
    end
  else (HttpError 400 "There was an error parsing the body", []).

(** *** Notions used to state the properties of the handlers *)

(** The five provider operations of a submission that reaches the
    provider, in the order the handler performs them. *)
Definition submission_calls (request : SimulationRequest.t) (sim_id : string)
  : list provider_call :=
  [ get_latest_model_version_call (SimulationRequest.model_name request);
    create_inputs_from_experiment_call (SimulationRequest.experiment_name request);
    set_input_call "Server capacity" (PyInt (SimulationRequest.server_capacity request));
    create_simulation_call;
    get_outputs_and_run_if_absent_call sim_id ].

(** The identifier the client hands out next. *)
Definition next_sim_id (w : world) : string :=
  "sim_" +:+ format_04d (MockCloudClient._simulation_counter (client w) + 1).

(** The state a submission that reaches the provider leaves behind. *)
Definition after_submission (request : SimulationRequest.t) (w : world) : world :=
  {| client := {| MockCloudClient.api_key := MockCloudClient.api_key (client w);
                  MockCloudClient._simulation_counter :=
                    MockCloudClient._simulation_counter (client w) + 1 |};
     calls := calls w ++ submission_calls request (next_sim_id w) |}.

(** What the handler computes from the outputs of the run. *)
Definition respond (request : SimulationRequest.t) (now : datetime) (sim_id : string)
           (outputs : MockOutputs.t) : result SimulationResponse.t :=
  let mean_queue_size := MockOutputs.value outputs "Mean queue size|Mean queue size" in
  let server_utilization := MockOutputs.value outputs "Utilization|Server utilization" in
  rbind (format_2f mean_queue_size) (fun _ =>
  rbind (format_2f server_utilization) (fun _ =>
  SimulationResponse.init sim_id (SimulationRequest.server_capacity request)
    mean_queue_size server_utilization (MockOutputs.get_raw_outputs outputs)
    "completed" (Some now))).

(** The [except] clauses of [run_simulation]. *)
Definition run_handler (e : exn) : exn :=
  match e with
  | HTTPException _ _ => e
  | _ => HTTPException 500 ("Внутренняя ошибка при выполнении симуляции: " +:+ str_exn e)
  end.

(** The two metric keys of the output bag. *)
Definition key_queue : string := "Mean queue size|Mean queue size".
Definition key_utilization : string := "Utilization|Server utilization".

(** The exception of a failed conversion of an integer to a float. *)
Definition overflow : exn := OverflowError "int too large to convert to float".

(** The queue metric before clamping, from the converted capacity. *)
Definition raw_queue (f : spec_float) : spec_float :=
  SFsub prec emax (b64 10 0) (SFmul prec emax f MockOutputs.f1_5).

(** The request of the baseline scenario. *)
Definition demo_request : SimulationRequest.t :=
  {| SimulationRequest.server_capacity := 5;
     SimulationRequest.model_name := "Service System Demo";
     SimulationRequest.experiment_name := "Baseline" |}.

(** What [get_model_by_id] shows of a model it found. *)
Definition model_detail (model : MockModel.t) : ModelInfo.t :=
  {| ModelInfo.id := MockModel.id model;
     ModelInfo.name := MockModel.name model;
     ModelInfo.latest_version_id := option_map MockModelVersion.id (MockModel.latest_version model);
     ModelInfo.version_name := option_map MockModelVersion.name (MockModel.latest_version model);
     ModelInfo.version_number :=
       option_map MockModelVersion.number (MockModel.latest_version model) |}.

(** The state a handler that lists the models leaves behind. *)
Definition after_listing (w : world) : world :=
  {| client := client w; calls := calls w ++ [get_models_call] |}.

(** The error of [get_model_by_id] for an identifier it does not find. *)
Definition not_found (model_id : string) : exn :=
  HTTPException 404 ("Модель с ID " +:+ model_id +:+ " не найдена").

End Cw3.

(** ** cw4: the item service *)

Module Cw4.
Import Py.

(** *** cw4/schemas.py *)

Module ItemCreate.
Record t : Type := Build {
  title : string;
  description : option string;
  price : option Z
}.
End ItemCreate.

Module ItemUpdate.
Record t : Type := Build {
  title : option string;
  description : option string;
  price : option Z
}.
End ItemUpdate.

(** A stored row, which is also what [ItemResponse] shows of it. *)
Module Item.
Record t : Type := Build {
  id : Z;
  title : string;
  description : option string;
  price : option Z
}.
End Item.

(** *** The store and [crud] *)

(** Modelled from the spec: the persistent store behind a [Session]
    ([database.py] and [models.py] are not part of the sources): rows keyed
    by their identifier, and the identifier the next created row gets
    (auto-incrementing identifiers). *)
Record Session : Type := Build_Session {
  rows : gmap Z Item.t;
  next_id : Z
}.

Module crud.

(** Modelled from the spec: [crud.create_item] is not part of the
    sources.  Accepts the required title plus the optional fields,
    assigns a new identifier, returns the stored record. *)
Definition create_item (db : Session) (item : ItemCreate.t) : Item.t * Session :=
  let db_item :=
    {| Item.id := next_id db;
       Item.title := ItemCreate.title item;
       Item.description := ItemCreate.description item;
       Item.price := ItemCreate.price item |} in
  (db_item, {| rows := <[next_id db := db_item]> (rows db); next_id := next_id db + 1 |}).

(** Modelled from the spec: [crud.get_item] is not part of the
    sources.  Returns the record, or [None]. *)
Definition get_item (db : Session) (item_id : Z) : option Item.t :=
  rows db !! item_id.

(** Modelled from the spec: [crud.update_item] is not part of the
    sources.  Accepts a partial record, only present fields overwrite;
    returns the updated record, or [None] if the id does not exist. *)
Definition update_item (db : Session) (item_id : Z) (item : ItemUpdate.t)
  : option Item.t * Session :=
  match rows db !! item_id with
  | None => (None, db)
  | Some db_item =>
      let updated :=
        {| Item.id := Item.id db_item;
           Item.title := default (Item.title db_item) (ItemUpdate.title item);
           Item.description :=
             match ItemUpdate.description item with
             | Some d => Some d
             | None => Item.description db_item
             end;
           Item.price :=
             match ItemUpdate.price item with
             | Some p => Some p
             | None => Item.price db_item
             end |} in
      (Some updated, {| rows := <[item_id := updated]> (rows db); next_id := next_id db |})
  end.

(** Modelled from the spec: [crud.delete_item] is not part of the
    sources.  Removes the record; reports whether it existed. *)
Definition delete_item (db : Session) (item_id : Z) : bool * Session :=
  match rows db !! item_id with
  | None => (false, db)
  | Some _ => (true, {| rows := delete item_id (rows db); next_id := next_id db |})
  end.

End crud.

(** *** cw4/main.py *)

Definition create_item (item : ItemCreate.t) (db : Session) : result Item.t * Session :=
  let '(db_item, db') := crud.create_item db item in
  (Ok db_item, db').

Definition read_item (item_id : Z) (db : Session) : result Item.t :=
  let db_item := crud.get_item db item_id in
  match db_item with
  | None => Raise (HTTPException 404 "Item not found")
  | Some db_item => Ok db_item
  end.

Definition update_item (item_id : Z) (item : ItemUpdate.t) (db : Session)
  : result Item.t * Session :=
  let '(db_item, db') := crud.update_item db item_id item in
  match db_item with
  | None => (Raise (HTTPException 404 "Item not found"), db')
  | Some db_item => (Ok db_item, db')
  end.

Definition delete_item (item_id : Z) (db : Session) : result string * Session :=
  let '(success, db') := crud.delete_item db item_id in
  if negb success then (Raise (HTTPException 404 "Item not found"), db')
  else (Ok "Item deleted successfully", db').

End Cw4.

(** ** Conversion of integers to binary64 *)

Module Binary64Facts.
Import Py.

(** The number of binary digits of a mantissa is its logarithm plus one. *)
Lemma digits2_pos_size p : digits2_pos p = Pos.size p.
Proof. induction p; cbn; congruence. Qed.

Lemma Zdigits2_log2 z : 0 < z -> Zdigits2 z = Z.log2 z + 1.
Proof.
  destruct z as [|p|p]; try lia. intros _. cbn [Zdigits2].
  rewrite digits2_pos_size.
  destruct p; cbn; lia.
Qed.

Lemma Zdigits2_bounds z : 0 < z -> 2 ^ (Zdigits2 z - 1) <= z < 2 ^ Zdigits2 z.
Proof.
  intros Hz. rewrite (Zdigits2_log2 z Hz).
  replace (Z.log2 z + 1 - 1) with (Z.log2 z) by lia.
  replace (Z.log2 z + 1) with (Z.succ (Z.log2 z)) by lia.
  apply Z.log2_spec. exact Hz.
Qed.

Lemma Zdigits2_unique z k : 0 < k -> 2 ^ (k - 1) <= z < 2 ^ k -> Zdigits2 z = k.
Proof.
  intros Hk Hz.
  assert (0 < z) by (pose proof (Z.pow_pos_nonneg 2 (k - 1)); lia).
  rewrite Zdigits2_log2 by assumption.
  rewrite (Z.log2_unique z (k - 1)); try lia.
  replace (Z.succ (k - 1)) with k by lia. exact Hz.
Qed.

(** One step of the right shift halves the mantissa and records the bit
    it drops. *)
Lemma shr_1_m r : 0 <= shr_m r -> shr_m (shr_1 r) = Z.shiftr (shr_m r) 1.
Proof.
  destruct r as [m rb sb]. cbn [shr_m]. intros Hm.
  rewrite Z.shiftr_div_pow2 by lia. change (2 ^ 1) with 2.
  destruct m as [|[p|p|]|p]; cbn [shr_1 shr_m].
  - reflexivity.
  - rewrite Pos2Z.inj_xI. apply (Z.div_unique _ _ _ 1); lia.
  - rewrite Pos2Z.inj_xO. apply (Z.div_unique _ _ _ 0); lia.
  - reflexivity.
  - lia.
Qed.

Lemma shr_1_r r : 0 <= shr_m r -> shr_r (shr_1 r) = Z.odd (shr_m r).
Proof.
  destruct r as [m rb sb]. cbn [shr_m]. intros Hm.
  destruct m as [|[p|p|]|p]; try lia; reflexivity.
Qed.

Section Shift.
Variable m0 : Z.
Hypothesis Hm0 : 0 <= m0.

Lemma shifted_step k r : 0 <= k -> shifted m0 k r -> shifted m0 (k + 1) (shr_1 r).
Proof.
  intros Hk [Hm Hr].
  assert (Hnn : 0 <= shr_m r) by (rewrite Hm; apply Z.shiftr_nonneg; exact Hm0).
  split.
  - rewrite shr_1_m, Hm, Z.shiftr_shiftr by lia. reflexivity.
  - intros _. rewrite shr_1_r, Hm by assumption.
    rewrite <- Z.bit0_odd, Z.shiftr_spec by lia. f_equal. lia.
Qed.

Lemma shifted_iter p : forall k r, 0 <= k -> shifted m0 k r ->
  shifted m0 (k + Zpos p) (SpecFloat.iter_pos shr_1 p r).
Proof.
  induction p as [p IH|p IH|]; intros k r Hk Hr; cbn [SpecFloat.iter_pos].
  - replace (k + Z.pos p~1) with (k + 1 + Z.pos p + Z.pos p) by lia.
    apply IH; [lia|]. apply IH; [lia|]. apply shifted_step; assumption.
  - replace (k + Z.pos p~0) with (k + Z.pos p + Z.pos p) by lia.
    apply IH; [lia|]. apply IH; assumption.
  - apply shifted_step; assumption.
Qed.

Lemma shr_exact n e :
  0 <= n ->
  let '(r, e') := shr (shr_record_of_loc m0 loc_Exact) e n in
  e' = e + n /\ shr_m r = Z.shiftr m0 n /\ (0 < n -> shr_r r = Z.testbit m0 (n - 1)).
Proof.
  intros Hn. destruct n as [|p|p]; try lia; cbn [shr shr_record_of_loc].
  - split; [lia|]. split; [reflexivity|lia].
  - split; [reflexivity|].
    apply (shifted_iter p 0 {| shr_m := m0; shr_r := false; shr_s := false |}); [lia|].
    split; [reflexivity|lia].
Qed.
End Shift.

(** Away from the subnormal range the exponent of a double is the
    magnitude less the 53 bits of the mantissa. *)
Lemma fexp_normal e : -1021 <= e -> fexp prec emax e = e - 53.
Proof. intros He. unfold fexp, emin, prec, emax. lia. Qed.

Lemma round_nearest_even_bounds m l : m <= round_nearest_even m l <= m + 1.
Proof. destruct l as [|[]]; cbn; try destruct (Z.even m); lia. Qed.

Lemma round_nearest_even_odd r :
  Z.odd (shr_m r) = true ->
  round_nearest_even (shr_m r) (loc_of_shr_record r)
  = if shr_r r then shr_m r + 1 else shr_m r.
Proof.
  destruct r as [m rb sb]. cbn [shr_m shr_r]. intros Hodd.
  rewrite <- Z.negb_even in Hodd. apply negb_true_iff in Hodd.
  destruct rb, sb; cbn; rewrite ?Hodd; reflexivity.
Qed.

(** A mantissa of exactly 53 bits is kept as it is. *)
Lemma binary_round_aux_53 sx (mz : positive) ez :
  Zdigits2 (Zpos mz) = 53 -> -52 <= ez <= 971 ->
  binary_round_aux prec emax sx (Zpos mz) ez loc_Exact = S754_finite sx mz ez.
Proof.
  intros Hd He. unfold binary_round_aux, shr_fexp.
  rewrite Hd, fexp_normal by lia.
  replace (53 + ez - 53 - ez) with 0 by lia.
  cbn [shr shr_record_of_loc shr_m loc_of_shr_record round_nearest_even].
  rewrite Hd, fexp_normal by lia.
  replace (53 + ez - 53 - ez) with 0 by lia. cbn [shr shr_record_of_loc shr_m].
  assert (E : (ez <=? emax - prec) = true) by (apply Z.leb_le; unfold emax, prec; lia).
  rewrite E. reflexivity.
Qed.

(** Dropping all but the leading 53 bits leaves a 53-bit number. *)
Lemma shiftr_bounds (m D n : Z) :
  0 <= n -> n + 53 = D -> 2 ^ (D - 1) <= m < 2 ^ D ->
  2 ^ 52 <= Z.shiftr m n < 2 ^ 53.
Proof.
  intros Hn HD Hm. rewrite Z.shiftr_div_pow2 by exact Hn.
  assert (Hp : 0 < 2 ^ n) by (apply Z.pow_pos_nonneg; lia).
  assert (E1 : 2 ^ (D - 1) = 2 ^ n * 2 ^ 52)
    by (rewrite <- Z.pow_add_r by lia; f_equal; lia).
  assert (E2 : 2 ^ D = 2 ^ n * 2 ^ 53)
    by (rewrite <- Z.pow_add_r by lia; f_equal; lia).
  split.
  - apply Z.div_le_lower_bound; [exact Hp | lia].
  - apply Z.div_lt_upper_bound; [exact Hp | lia].
Qed.

(** The second normalisation step of [binary_round_aux], after rounding a
    53-bit mantissa: a carry into bit 53 costs one more exponent. *)
Lemma renormalise sx (m1 e' : Z) :
  2 ^ 52 <= m1 <= 2 ^ 53 -> -52 <= e' ->
  is_finite
    (let '(mrs'', e'') := shr_fexp prec emax m1 e' loc_Exact in
     match shr_m mrs'' with
     | Z0 => S754_zero sx
     | Zpos m => if e'' <=? emax - prec then S754_finite sx m e'' else S754_infinity sx
     | Zneg _ => S754_nan
     end) = (if m1 <? 2 ^ 53 then e' <=? 971 else e' + 1 <=? 971).
Proof.
  intros Hm He. unfold shr_fexp.
  destruct (m1 <? 2 ^ 53) eqn:Hlt.
  - apply Z.ltb_lt in Hlt.
    rewrite (Zdigits2_unique m1 53) by lia. rewrite fexp_normal by lia.
    replace (53 + e' - 53 - e') with 0 by lia. cbn [shr shr_record_of_loc shr_m].
    destruct m1 as [|p|p]; try lia. change (emax - prec) with 971.
    destruct (e' <=? 971); reflexivity.
  - apply Z.ltb_ge in Hlt. assert (m1 = 2 ^ 53) by lia. subst m1.
    rewrite (Zdigits2_unique (2 ^ 53) 54) by lia. rewrite fexp_normal by lia.
    replace (54 + e' - 53 - e') with 1 by lia.
    cbn [shr shr_record_of_loc SpecFloat.iter_pos]. change (emax - prec) with 971.
    cbn. destruct (e' + 1 <=? 971); reflexivity.
Qed.

(** An integer of more than 53 bits converts to a finite double exactly
    when it lies below the midpoint between the largest double and
    [2^1024]. *)
Lemma binary_round_aux_wide sx (mx : positive) :
  54 <= Zdigits2 (Zpos mx) ->
  is_finite (binary_round_aux prec emax sx (Zpos mx) 0 loc_Exact) = true
  <-> Zpos mx < 2 ^ 1024 - 2 ^ 970.
Proof.
  intros HD. set (D := Zdigits2 (Zpos mx)) in *.
  assert (Hb : 2 ^ (D - 1) <= Zpos mx < 2 ^ D) by (apply Zdigits2_bounds; lia).
  unfold binary_round_aux. unfold shr_fexp at 1. fold D.
  rewrite fexp_normal by lia.
  replace (D + 0 - 53 - 0) with (D - 53) by lia.
  pose proof (shr_exact (Zpos mx) ltac:(lia) (D - 53) 0 ltac:(lia)) as Hshr.
  destruct (shr _ _ _) as [r e']. destruct Hshr as (He' & Hm & Hr).
  pose proof (shiftr_bounds (Zpos mx) D (D - 53) ltac:(lia) ltac:(lia) Hb) as Hm'.
  rewrite <- Hm in Hm'.
  pose proof (round_nearest_even_bounds (shr_m r) (loc_of_shr_record r)) as Hm1.
  rewrite renormalise by lia. subst e'.
  set (m1 := round_nearest_even (shr_m r) (loc_of_shr_record r)) in *.
  destruct (Z.lt_trichotomy D 1024) as [Hlt | [Heq | Hgt]].
  - (* at most 1023 bits *)
    assert (2 ^ D <= 2 ^ 1023) by (apply Z.pow_le_mono_r; lia).
    split; [intros _; lia|intros _].
    destruct (m1 <? 2 ^ 53); apply Z.leb_le; lia.
  - (* exactly 1024 bits *)
    rewrite Heq in *. clear Heq.
    replace (1024 - 53) with 971 in * by lia. replace (971 - 1) with 970 in * by lia.
    specialize (Hr ltac:(lia)).
    set (q := Z.pos mx / 2 ^ 970).
    assert (Hq : Z.pos mx = 2 ^ 970 * q + Z.pos mx mod 2 ^ 970)
      by (apply Z.div_mod; lia).
    assert (Hrem : 0 <= Z.pos mx mod 2 ^ 970 < 2 ^ 970)
      by (apply Z.mod_pos_bound; lia).
    assert (Hm2 : shr_m r = q / 2).
    { rewrite Hm, Z.shiftr_div_pow2 by lia. unfold q.
      rewrite Z.div_div by lia. reflexivity. }
    assert (Hq2 : q = 2 * (q / 2) + q mod 2) by (apply Z.div_mod; lia).
    assert (Hbit : 0 <= q mod 2 < 2) by (apply Z.mod_pos_bound; lia).
    replace (0 + 971 <=? 971) with true by reflexivity.
    replace (0 + 971 + 1 <=? 971) with false by reflexivity.
    destruct (Z.eq_dec (shr_m r) (2 ^ 53 - 1)) as [Htop | Hlow].
    + assert (Hodd : Z.odd (shr_m r) = true) by (rewrite Htop; reflexivity).
      assert (Hm1' : m1 = if shr_r r then shr_m r + 1 else shr_m r)
        by (apply round_nearest_even_odd; exact Hodd).
      destruct (shr_r r).
      * symmetry in Hr. apply Z.testbit_true in Hr; [|lia]. fold q in Hr.
        assert (E : (m1 <? 2 ^ 53) = false) by (apply Z.ltb_ge; lia).
        rewrite E. split; [discriminate | lia].
      * symmetry in Hr. apply Z.testbit_false in Hr; [|lia]. fold q in Hr.
        assert (E : (m1 <? 2 ^ 53) = true) by (apply Z.ltb_lt; lia).
        rewrite E. split; [intros _; lia | reflexivity].
    + assert (E : (m1 <? 2 ^ 53) = true) by (apply Z.ltb_lt; lia).
      rewrite E. split; [intros _; lia | reflexivity].
  - (* more than 1024 bits *)
    assert (2 ^ 1024 <= 2 ^ (D - 1)) by (apply Z.pow_le_mono_r; lia).
    split; [|lia].
    destruct (m1 <? 2 ^ 53); intros Hle; apply Z.leb_le in Hle; lia.
Qed.

(** The left shift that aligns a short mantissa. *)
Lemma pos_iter_xO (m p : positive) : Zpos (Pos.iter xO m p) = Zpos m * 2 ^ Zpos p.
Proof.
  induction p as [|p IH] using Pos.peano_ind.
  - cbn [Pos.iter]. lia.
  - rewrite Pos.iter_succ, Pos2Z.inj_xO, IH, Pos2Z.inj_succ, Z.pow_succ_r by lia. lia.
Qed.

(** Rounding a positive integer to a double stays finite exactly below
    [2^1024 - 2^970]. *)
Lemma binary_round_finite sx (mx : positive) :
  is_finite (binary_round prec emax sx mx 0) = true <-> Zpos mx < 2 ^ 1024 - 2 ^ 970.
Proof.
  unfold binary_round, shl_align.
  change (Z.pos (digits2_pos mx)) with (Zdigits2 (Zpos mx)).
  set (D := Zdigits2 (Zpos mx)).
  assert (HD : 0 < D) by (unfold D; cbn; lia).
  assert (Hb : 2 ^ (D - 1) <= Zpos mx < 2 ^ D) by (apply Zdigits2_bounds; lia).
  rewrite fexp_normal by lia.
  destruct (D + 0 - 53 - 0) as [|p|p] eqn:Hshift.
  - rewrite binary_round_aux_53 by (fold D; lia).
    replace D with 53 in Hb by lia. split; [intros _; lia | reflexivity].
  - apply binary_round_aux_wide. fold D. lia.
  - assert (Hmz : Zdigits2 (Zpos (Pos.iter xO mx p)) = 53).
    { apply Zdigits2_unique; [lia|]. rewrite pos_iter_xO.
      assert (E1 : 2 ^ (53 - 1) = 2 ^ (D - 1) * 2 ^ Zpos p)
        by (rewrite <- Z.pow_add_r by lia; f_equal; lia).
      assert (E2 : 2 ^ 53 = 2 ^ D * 2 ^ Zpos p)
        by (rewrite <- Z.pow_add_r by lia; f_equal; lia).
      assert (0 < 2 ^ Zpos p) by (apply Z.pow_pos_nonneg; lia).
      rewrite E1, E2. nia. }
    rewrite binary_round_aux_53 by (try exact Hmz; lia).
    assert (2 ^ D <= 2 ^ 53) by (apply Z.pow_le_mono_r; lia).
    split; [intros _; lia | reflexivity].
Qed.

Lemma fits_float_is_finite z : fits_float z = is_finite (b64 z 0).
Proof. unfold fits_float, float_of_int. destruct (is_finite _); reflexivity. Qed.

(** [float(z)] succeeds exactly for the integers strictly between
    [-(2^1024 - 2^970)] and [2^1024 - 2^970]. *)
Theorem fits_float_iff z : fits_float z = true <-> Z.abs z < 2 ^ 1024 - 2 ^ 970.
Proof.
  rewrite fits_float_is_finite. unfold b64, binary_normalize.
  destruct z as [|m|m].
  - cbn. split; [intros _; lia | reflexivity].
  - apply binary_round_finite.
  - apply binary_round_finite.
Qed.

End Binary64Facts.

(** ** Properties of the gateway *)

Module Cw3Facts.
Import Py Cw3 Binary64Facts.

(** **** Sample evaluations *)

Example format_04d_first : format_04d 1 = "0001".
Proof. reflexivity. Qed.

Example format_04d_wide : format_04d 12345 = "12345".
Proof. reflexivity. Qed.

Example format_04d_negative : format_04d (-5) = "-005".
Proof. reflexivity. Qed.

Example float_of_int_largest : fits_float (2 ^ 1024 - 2 ^ 970 - 1) = true.
Proof. vm_compute. reflexivity. Qed.

Example float_of_int_least_overflow : float_of_int (2 ^ 1024 - 2 ^ 970) = Raise overflow.
Proof. vm_compute. reflexivity. Qed.

Example post_run_zero now :
  post_run (SimulationRequest.Body (Some 0) None None) now
  = (HttpError 422 "Input should be greater than 0", []).
Proof. reflexivity. Qed.

Example post_run_five now :
  exists response,
    post_run (SimulationRequest.Body (Some 5) None None) now
    = (Http200 response,
       submission_calls (SimulationRequest.Build 5 "Service System Demo" "Simulation")
                        "sim_0001") /\
    SimulationResponse.simulation_id response = "sim_0001" /\
    SimulationResponse.raw_outputs response !! key_utilization = Some (PyInt 90).
Proof. eexists. split; [vm_compute; reflexivity|]. split; vm_compute; reflexivity. Qed.

Example post_run_unreadable now :
  post_run (SimulationRequest.Body (Some (10 ^ 4300)) None None) now
  = (HttpError 400 "There was an error parsing the body", []).
Proof. vm_compute. reflexivity. Qed.

Example run_simulation_unprintable_negative now :
  run_simulation (SimulationRequest.Build (- 10 ^ 4300) "Service System Demo" "Simulation")
                 now fresh_world
  = (Raise digit_limit, fresh_world).
Proof. vm_compute. reflexivity. Qed.

Example str_exn_http : str_exn (HTTPException 404 "Item not found") = "404: Item not found".
Proof. reflexivity. Qed.

Example get_model_by_id_second :
  fst (get_model_by_id "model_2" fresh_world)
  = Ok (ModelInfo.Build "model_2" "Manufacturing Line Demo"
          (Some "version_model_2") (Some "Manufacturing Line Demo") (Some 1)).
Proof. reflexivity. Qed.

(** **** Printing the capacity *)

(** Every capacity that converts to a float is far below the digit
    limit. *)
Lemma digit_cap_above_float : 2 ^ 1024 - 2 ^ 970 < digit_cap.
Proof. unfold Z.lt. vm_compute. reflexivity. Qed.

Lemma format_field_int (z : Z) :
  Z.abs z < digit_cap -> format_field (PyInt z) = Ok tt.
Proof.
  intros Hz. unfold format_field, str_int.
  destruct (Z.leb_spec digit_cap (Z.abs z)); [lia | reflexivity].
Qed.

Lemma format_field_int_Raise (z : Z) :
  digit_cap <= Z.abs z -> format_field (PyInt z) = Raise digit_limit.
Proof.
  intros Hz. unfold format_field, str_int.
  destruct (Z.leb_spec digit_cap (Z.abs z)); [reflexivity | lia].
Qed.

(** A capacity of more than 4300 digits: the first log line of the handler
    raises, before the [try] and before any provider operation. *)
Lemma run_simulation_unprintable request now w :
  digit_cap <= Z.abs (SimulationRequest.server_capacity request) ->
  run_simulation request now w = (Raise digit_limit, w).
Proof.
  intros Hbig. unfold run_simulation, bind at 1, lift.
  rewrite (format_field_int_Raise _ Hbig). reflexivity.
Qed.

(** A capacity that is not positive and prints: the check of the handler
    answers 400, and nothing has changed. *)
Lemma run_simulation_nonpositive request now w :
  - digit_cap < SimulationRequest.server_capacity request <= 0 ->
  run_simulation request now w =
    (Raise (HTTPException 400 "Количество серверов должно быть положительным числом"), w).
Proof.
  intros [Hlo Hle].
  assert (Hfmt : format_field (PyInt (SimulationRequest.server_capacity request)) = Ok tt)
    by (apply format_field_int; lia).
  apply Z.leb_le in Hle.
  unfold run_simulation. rewrite !Hfmt.
  unfold try_except, bind, lift. rewrite Hle. reflexivity.
Qed.

Lemma run_simulation_positive request now w :
  0 < SimulationRequest.server_capacity request < digit_cap ->
  run_simulation request now w =
    match rbind (MockOutputs.init (PyInt (SimulationRequest.server_capacity request)))
                (respond request now (next_sim_id w)) with
    | Ok response => (Ok response, after_submission request w)
    | Raise e => (Raise (run_handler e), after_submission request w)
    end.
Proof.
  intros [Hpos Hcap].
  assert (Hle : (SimulationRequest.server_capacity request <=? 0) = false)
    by (apply Z.leb_gt; exact Hpos).
  assert (Hfmt : format_field (PyInt (SimulationRequest.server_capacity request)) = Ok tt)
    by (apply format_field_int; lia).
  destruct w as [c cs].
  unfold run_simulation. rewrite !Hfmt, Hle.
  cbv [try_except ret raise lift invoke bind get_latest_model_version
       create_inputs_from_experiment set_input create_simulation
       get_outputs_and_run_if_absent MockSimulation.inputs MockSimulation.id
       MockInputs.params MockInputs.init
       client calls after_submission next_sim_id submission_calls respond].
  rewrite !Hfmt.
  cbv [try_except ret raise lift invoke bind get_latest_model_version
       create_inputs_from_experiment set_input create_simulation
       get_outputs_and_run_if_absent MockSimulation.inputs MockSimulation.id
       MockInputs.params MockInputs.init
       client calls after_submission next_sim_id submission_calls respond].
  rewrite lookup_insert_eq. cbn [default].
  rewrite <- !app_assoc. cbn [app].
  destruct (MockOutputs.init _) as [outputs|e]; cbn [rbind].
  - destruct (format_2f _) as [[]|e]; cbn [rbind]; [|destruct e; reflexivity].
    destruct (format_2f _) as [[]|e]; cbn [rbind]; [|destruct e; reflexivity].
    destruct (SimulationResponse.init _ _ _ _ _ _ _) as [response|e];
      [reflexivity|destruct e; reflexivity].
  - destruct e; reflexivity.
Qed.

Lemma rbind_Ok {A B} (r : result A) (k : A -> result B) (b : B) :
  rbind r k = Ok b -> exists a, r = Ok a /\ k a = Ok b.
Proof. destruct r as [a|e]; cbn; [eauto | discriminate]. Qed.

Lemma rbind_Raise {A B} (r : result A) (k : A -> result B) (e : exn) :
  rbind r k = Raise e -> r = Raise e \/ exists a, r = Ok a /\ k a = Raise e.
Proof. destruct r as [a|e']; cbn; [eauto | intros H; left; congruence]. Qed.

Lemma float_of_int_Raise z e : float_of_int z = Raise e -> e = overflow.
Proof.
  unfold float_of_int. destruct (is_finite _); [discriminate|].
  intros H; injection H as <-. reflexivity.
Qed.

Lemma fits_float_Ok z : fits_float z = true -> float_of_int z = Ok (b64 z 0).
Proof.
  unfold fits_float, float_of_int. destruct (is_finite _); [reflexivity | discriminate].
Qed.

Lemma to_float_Raise v e : to_float v = Raise e -> e = overflow.
Proof. destruct v; cbn; [apply float_of_int_Raise | discriminate]. Qed.

Lemma MockOutputs_init_int (sc : Z) :
  MockOutputs.init (PyInt sc) =
    rbind (float_of_int sc) (fun f =>
      Ok {| MockOutputs.server_capacity := PyInt sc;
            MockOutputs.data :=
              <[key_utilization := min (PyInt 100) (PyInt (50 + sc * 8))]>
              (<[key_queue := max (PyInt 0) (PyFloat (raw_queue f))]> ∅) |}).
Proof.
  unfold MockOutputs.init, mul, sub, add, arith.
  destruct (float_of_int sc) as [f|e]; reflexivity.
Qed.

Lemma MockOutputs_init_Raise sc e : MockOutputs.init (PyInt sc) = Raise e -> e = overflow.
Proof.
  rewrite MockOutputs_init_int. destruct (float_of_int sc) as [f|e'] eqn:E; cbn; [discriminate|].
  intros H; injection H as <-. eapply float_of_int_Raise, E.
Qed.

Lemma MockOutputs_init_values sc outputs :
  MockOutputs.init (PyInt sc) = Ok outputs ->
  exists f, float_of_int sc = Ok f /\
    MockOutputs.value outputs key_queue = max (PyInt 0) (PyFloat (raw_queue f)) /\
    MockOutputs.value outputs key_utilization = min (PyInt 100) (PyInt (50 + sc * 8)).
Proof.
  rewrite MockOutputs_init_int. intros H.
  apply rbind_Ok in H as (f & Hf & H). injection H as <-.
  exists f. split; [exact Hf|]. unfold MockOutputs.value. cbn [MockOutputs.data].
  split.
  - rewrite lookup_insert_ne by discriminate. rewrite lookup_insert_eq. reflexivity.
  - rewrite lookup_insert_eq. reflexivity.
Qed.

Lemma lt_le a b : lt a b = true -> le a b = true.
Proof. unfold lt, le. destruct (cmp a b) as [[]|]; congruence. Qed.

Lemma max_lower a b : le a a = true -> le a (max a b) = true.
Proof. intros Ha. unfold max. destruct (lt a b) eqn:E; [apply lt_le, E | exact Ha]. Qed.

Lemma min_upper a b : le a a = true -> le (min a b) a = true.
Proof. intros Ha. unfold min. destruct (lt b a) eqn:E; [apply lt_le, E | exact Ha]. Qed.

Lemma max_0_float (f : spec_float) :
  max (PyInt 0) (PyFloat f) = PyInt 0 \/ max (PyInt 0) (PyFloat f) = PyFloat f.
Proof. unfold max. destruct (lt _ _); auto. Qed.

Lemma min_100_int (y : Z) :
  min (PyInt 100) (PyInt y) = PyInt (Z.min 100 y).
Proof.
  unfold min, lt, cmp. destruct (y ?= 100) eqn:E.
  - apply Z.compare_eq in E. subst. reflexivity.
  - rewrite Z.compare_lt_iff in E. f_equal. lia.
  - rewrite Z.compare_gt_iff in E. f_equal. lia.
Qed.

Lemma format_2f_Raise v e : format_2f v = Raise e -> e = overflow.
Proof.
  unfold format_2f. destruct (to_float v) as [f|e'] eqn:E; cbn; [discriminate|].
  intros H; injection H as <-. eapply to_float_Raise, E.
Qed.

(** A value that a [:.2f] field printed passes the validation of a
    [float] field. *)
Lemma format_2f_float_field v u :
  format_2f v = Ok u -> exists f, to_float v = Ok f /\ SimulationResponse.float_field v = Ok f.
Proof.
  unfold format_2f, SimulationResponse.float_field.
  destruct (to_float v) as [f|e]; cbn [rbind]; [eauto | discriminate].
Qed.

Lemma float_field_Ok v f : SimulationResponse.float_field v = Ok f -> to_float v = Ok f.
Proof.
  unfold SimulationResponse.float_field. destruct (to_float v); congruence.
Qed.

Lemma respond_Raise request now sim_id outputs e :
  respond request now sim_id outputs = Raise e -> e = overflow.
Proof.
  unfold respond, SimulationResponse.init. intros H.
  apply rbind_Raise in H as [H | (u1 & H1 & H)]; [eapply format_2f_Raise, H|].
  apply rbind_Raise in H as [H | (u2 & H2 & H)]; [eapply format_2f_Raise, H|].
  apply format_2f_float_field in H1 as (q & _ & Hq).
  apply format_2f_float_field in H2 as (u & _ & Hu).
  rewrite Hq, Hu in H. discriminate.
Qed.

Lemma respond_Ok request now sim_id outputs response :
  respond request now sim_id outputs = Ok response ->
  SimulationResponse.simulation_id response = sim_id /\
  SimulationResponse.server_capacity response = SimulationRequest.server_capacity request /\
  SimulationResponse.status response = "completed" /\
  to_float (MockOutputs.value outputs key_queue)
    = Ok (SimulationResponse.mean_queue_size response) /\
  to_float (MockOutputs.value outputs key_utilization)
    = Ok (SimulationResponse.server_utilization response) /\
  SimulationResponse.raw_outputs response = MockOutputs.data outputs.
Proof.
  unfold respond, SimulationResponse.init. intros H.
  apply rbind_Ok in H as (_ & _ & H). apply rbind_Ok in H as (_ & _ & H).
  apply rbind_Ok in H as (q & Hq & H). apply rbind_Ok in H as (u & Hu & H).
  apply float_field_Ok in Hq, Hu.
  injection H as <-. cbn. repeat split; assumption.
Qed.

(** The outcome of a submission that passes the capacity check: either a
    response, or the 500 error made from an [OverflowError]. *)
Lemma run_simulation_outcome request now w :
  0 < SimulationRequest.server_capacity request < digit_cap ->
  (exists outputs response,
      MockOutputs.init (PyInt (SimulationRequest.server_capacity request)) = Ok outputs /\
      respond request now (next_sim_id w) outputs = Ok response /\
      run_simulation request now w = (Ok response, after_submission request w))
  \/ run_simulation request now w = (Raise (run_handler overflow), after_submission request w).
Proof.
  intros Hpos. rewrite (run_simulation_positive _ _ _ Hpos).
  destruct (MockOutputs.init _) as [outputs|e] eqn:E; cbn [rbind].
  - destruct (respond _ _ _ _) as [response|e] eqn:R.
    + left. eauto.
    + right. apply respond_Raise in R. subst. reflexivity.
  - right. apply MockOutputs_init_Raise in E. subst. reflexivity.
Qed.

(** **** Submission *)

(** C1: a request whose [server_capacity] is not positive fails with a
    400-class error and no provider operation is invoked.  At the route the
    body is answered 422 by the validation of the capacity, or 400 when its
    capacity has more than 4300 digits and cannot be read, and the handler
    does not run.  The handler itself, for every such capacity that its
    first log line can print, raises the 400 error of its check and leaves
    the client and the log of provider operations as they were. *)
Theorem run_simulation_rejects_nonpositive (b : SimulationRequest.body) (n : Z) now :
  SimulationRequest.body_server_capacity b = Some n ->
  n <= 0 ->
  (exists code detail,
      post_run b now = (HttpError code detail, []) /\ 400 <= code < 500) /\
  (- digit_cap < n ->
   forall model_name experiment_name w,
     run_simulation (SimulationRequest.Build n model_name experiment_name) now w =
       (Raise (HTTPException 400 "Количество серверов должно быть положительным числом"),
        w)).
Proof.
  intros Hb Hn. split.
  - unfold post_run, body_readable, SimulationRequest.validate. rewrite Hb.
    destruct (digit_cap <=? Z.abs n); cbn [negb].
    + exists 400. eexists. split; [reflexivity | lia].
    + assert (E : (0 <? n) = false) by (apply Z.ltb_ge; exact Hn).
      rewrite E. exists 422. eexists. split; [reflexivity | lia].
  - intros Hlo model_name experiment_name w.
    apply run_simulation_nonpositive. cbn [SimulationRequest.server_capacity]. lia.
Qed.

Lemma run_simulation_rejects_nonpositive_witness :
  (exists code detail,
      post_run (SimulationRequest.Body (Some (-3)) None None) 0
        = (HttpError code detail, []) /\ 400 <= code < 500) /\
  (- digit_cap < -3 ->
   forall model_name experiment_name w,
     run_simulation (SimulationRequest.Build (-3) model_name experiment_name) 0 w =
       (Raise (HTTPException 400 "Количество серверов должно быть положительным числом"),
        w)).
Proof.
  apply (run_simulation_rejects_nonpositive (SimulationRequest.Body (Some (-3)) None None));
    [reflexivity | lia].
Defined.

(** C2: submitting capacity 5 for model "Service System Demo" and
    experiment "Baseline" to the mock provider gives a response whose
    [mean_queue_size] is the double 2.5 and whose [server_utilization] is
    the double 90.0, whatever the state of the client. *)
Theorem run_simulation_baseline_scenario now w :
  exists response,
    run_simulation demo_request now w = (Ok response, after_submission demo_request w) /\
    SimulationResponse.mean_queue_size response = b64 5 (-1) /\
    float_value (SimulationResponse.mean_queue_size response) = Some (5 # 2)%Q /\
    SimulationResponse.server_utilization response = b64 90 0 /\
    float_value (SimulationResponse.server_utilization response) = Some (90 # 1)%Q.
Proof.
  rewrite run_simulation_positive
    by (pose proof digit_cap_above_float;
        cbn [SimulationRequest.server_capacity demo_request]; lia).
  change (SimulationRequest.server_capacity demo_request) with 5.
  destruct (MockOutputs.init (PyInt 5)) as [outputs|e] eqn:E; [|vm_compute in E; discriminate].
  destruct (MockOutputs_init_values _ _ E) as (f & Hf & Hq & Hu).
  assert (f = b64 5 0) by (vm_compute in Hf; injection Hf as <-; reflexivity). subst f.
  unfold key_queue, key_utilization in Hq, Hu.
  cbn [rbind]. unfold respond. rewrite Hq, Hu.
  eexists. split; [reflexivity|].
  repeat split; vm_compute; reflexivity.
Qed.

(** C3: a submission with a positive capacity that succeeds carries a
    non-empty [simulation_id], echoes the requested [server_capacity], and
    has status "completed". *)
Theorem run_simulation_success_shape request now w response w' :
  0 < SimulationRequest.server_capacity request ->
  run_simulation request now w = (Ok response, w') ->
  SimulationResponse.simulation_id response <> "" /\
  SimulationResponse.server_capacity response = SimulationRequest.server_capacity request /\
  SimulationResponse.status response = "completed".
Proof.
  intros Hpos Hrun.
  destruct (Z.lt_ge_cases (SimulationRequest.server_capacity request) digit_cap)
    as [Hcap|Hbig].
  - destruct (run_simulation_outcome request now w (conj Hpos Hcap))
      as [(outputs & response0 & _ & Hresp & Heq) | Heq];
      rewrite Heq in Hrun; [|discriminate].
    injection Hrun as <- <-.
    apply respond_Ok in Hresp as (Hid & Hsc & Hst & _).
    rewrite Hid. repeat split; [discriminate | exact Hsc | exact Hst].
  - rewrite run_simulation_unprintable in Hrun by lia. discriminate.
Qed.

Lemma run_simulation_success_shape_witness :
  exists response w',
    run_simulation demo_request 0 fresh_world = (Ok response, w') /\
    SimulationResponse.simulation_id response <> "" /\
    SimulationResponse.server_capacity response = 5 /\
    SimulationResponse.status response = "completed".
Proof.
  eexists _, _. split; [vm_compute; reflexivity|].
  eapply (run_simulation_success_shape demo_request 0 fresh_world);
    [cbn; lia | vm_compute; reflexivity].
Defined.

(** C7: when a key is absent from the output bag, and in particular when
    one of the two metric keys is, [value] returns the default, the float
    [0.0]; it raises nothing. *)
Theorem value_absent_key_default (outputs : MockOutputs.t) (key : string) :
  MockOutputs.data outputs !! key = None ->
  MockOutputs.value outputs key = PyFloat (S754_zero false) /\
  float_value (S754_zero false) = Some (0 # 1)%Q.
Proof.
  intros Habsent. unfold MockOutputs.value. rewrite Habsent. split; reflexivity.
Qed.

Lemma value_absent_key_default_witness :
  MockOutputs.value (MockOutputs.Build (PyInt 5) ∅) key_queue = PyFloat (S754_zero false) /\
  float_value (S754_zero false) = Some (0 # 1)%Q.
Proof. apply value_absent_key_default. cbn. apply lookup_empty. Defined.

(** C8: for every integer capacity from which the mock builds its
    outputs, the queue metric is at least 0 and the utilization metric is
    at most 100. *)
Theorem MockOutputs_metrics_clamped (sc : Z) (outputs : MockOutputs.t) :
  MockOutputs.init (PyInt sc) = Ok outputs ->
  le (PyInt 0) (MockOutputs.value outputs key_queue) = true /\
  le (MockOutputs.value outputs key_utilization) (PyInt 100) = true.
Proof.
  intros Hinit.
  destruct (MockOutputs_init_values _ _ Hinit) as (f & _ & -> & ->).
  split; [apply max_lower | apply min_upper]; reflexivity.
Qed.

Lemma MockOutputs_metrics_clamped_witness :
  exists outputs,
    MockOutputs.init (PyInt (-4)) = Ok outputs /\
    le (PyInt 0) (MockOutputs.value outputs key_queue) = true /\
    le (MockOutputs.value outputs key_utilization) (PyInt 100) = true.
Proof.
  eexists. split; [vm_compute; reflexivity|].
  apply (MockOutputs_metrics_clamped (-4)). vm_compute. reflexivity.
Defined.

(** C9: a request that passed validation has a positive capacity, so the
    condition of the handler's capacity check is false for it and no run
    of the handler on it ends in the 400 error. *)
Theorem validated_request_never_400 (b : SimulationRequest.body) (request : SimulationRequest.t) :
  SimulationRequest.validate b = Ok request ->
  0 < SimulationRequest.server_capacity request /\
  (SimulationRequest.server_capacity request <=? 0) = false /\
  forall now w detail w',
    run_simulation request now w <> (Raise (HTTPException 400 detail), w').
Proof.
  unfold SimulationRequest.validate. intros Hvalid.
  destruct (SimulationRequest.body_server_capacity b) as [n|]; [|discriminate].
  destruct (0 <? n) eqn:Hn; [|discriminate].
  injection Hvalid as <-. cbn [SimulationRequest.server_capacity].
  apply Z.ltb_lt in Hn. split; [exact Hn|]. split; [apply Z.leb_gt; exact Hn|].
  intros now w detail w'.
  destruct (Z.lt_ge_cases n digit_cap) as [Hcap|Hbig].
  - match goal with |- run_simulation ?r _ _ <> _ =>
      destruct (run_simulation_outcome r now w (conj Hn Hcap))
        as [(outputs & response & _ & _ & ->) | ->]
    end; discriminate.
  - rewrite run_simulation_unprintable by (cbn [SimulationRequest.server_capacity]; lia).
    discriminate.
Qed.

Lemma validated_request_never_400_witness :
  0 < 5 /\ (5 <=? 0) = false /\
  forall now w detail w',
    run_simulation (SimulationRequest.Build 5 "Service System Demo" "Simulation") now w
      <> (Raise (HTTPException 400 detail), w').
Proof.
  apply (validated_request_never_400
           (SimulationRequest.Body (Some 5) None None)
           (SimulationRequest.Build 5 "Service System Demo" "Simulation")).
  reflexivity.
Defined.

(** **** When the mock raises *)

(** Every integer from 0 to 100 converts to a double. *)
Lemma fits_float_percent z : 0 <= z <= 100 -> fits_float z = true.
Proof. intros Hz. apply fits_float_iff. lia. Qed.

Lemma to_float_clamped_queue (q : spec_float) :
  exists g, to_float (max (PyInt 0) (PyFloat q)) = Ok g.
Proof.
  destruct (max_0_float q) as [-> | ->]; eexists; reflexivity.
Qed.

Lemma to_float_clamped_utilization (sc : Z) :
  0 < sc -> exists g, to_float (min (PyInt 100) (PyInt (50 + sc * 8))) = Ok g.
Proof.
  intros Hpos. rewrite min_100_int. cbn [to_float].
  eexists. apply fits_float_Ok, fits_float_percent. lia.
Qed.

(** Once the mock has produced outputs for a positive capacity, the
    rest of the handler cannot fail. *)
Lemma respond_total request now sim_id outputs :
  0 < SimulationRequest.server_capacity request ->
  MockOutputs.init (PyInt (SimulationRequest.server_capacity request)) = Ok outputs ->
  exists response, respond request now sim_id outputs = Ok response.
Proof.
  intros Hpos Hinit.
  destruct (MockOutputs_init_values _ _ Hinit) as (f & _ & Hq & Hu).
  destruct (to_float_clamped_queue (raw_queue f)) as (q & Eq).
  destruct (to_float_clamped_utilization _ Hpos) as (u & Eu).
  unfold key_queue, key_utilization in Hq, Hu.
  unfold respond, format_2f, SimulationResponse.init, SimulationResponse.float_field.
  rewrite Hq, Hu, Eq, Eu. cbn [rbind]. eexists. reflexivity.
Qed.

(** X7: the mock builds outputs exactly for the capacities that convert
    to a float, those strictly between [-(2^1024 - 2^970)] and
    [2^1024 - 2^970]; for the others its constructor raises. *)
Lemma MockOutputs_init_total (sc : Z) :
  (exists outputs, MockOutputs.init (PyInt sc) = Ok outputs)
  <-> Z.abs sc < 2 ^ 1024 - 2 ^ 970.
Proof.
  rewrite <- fits_float_iff, MockOutputs_init_int. unfold fits_float.
  destruct (float_of_int sc) as [f|e]; cbn [rbind].
  - split; [reflexivity | eauto].
  - split; [intros (outputs & H); discriminate | discriminate].
Qed.

(** C10, as the code has it: against the mock provider, whatever the
    model name and the experiment name, a request whose capacity is
    positive and below [2^1024 - 2^970], the least integer that does not
    convert to a float, gets a response with status "completed"; the five
    provider operations have been performed. *)
Theorem run_simulation_completes_when_capacity_fits request now w :
  0 < SimulationRequest.server_capacity request < 2 ^ 1024 - 2 ^ 970 ->
  exists response,
    run_simulation request now w = (Ok response, after_submission request w) /\
    SimulationResponse.status response = "completed".
Proof.
  intros [Hpos Hbound].
  assert (Hfits : fits_float (SimulationRequest.server_capacity request) = true)
    by (apply fits_float_iff; lia).
  assert (Hsc : 0 < SimulationRequest.server_capacity request < digit_cap)
    by (pose proof digit_cap_above_float; lia).
  destruct (run_simulation_outcome request now w Hsc)
    as [(outputs & response & _ & Hresp & Hrun) | Hrun].
  - exists response. split; [exact Hrun|]. apply respond_Ok in Hresp. tauto.
  - exfalso. rewrite (run_simulation_positive _ _ _ Hsc) in Hrun.
    destruct (MockOutputs.init _) as [outputs|e] eqn:Hinit.
    + destruct (respond_total request now (next_sim_id w) outputs Hpos Hinit) as (r & Hr).
      cbn [rbind] in Hrun. rewrite Hr in Hrun. discriminate.
    + rewrite MockOutputs_init_int, (fits_float_Ok _ Hfits) in Hinit. discriminate.
Qed.

Lemma run_simulation_completes_when_capacity_fits_witness :
  exists response,
    run_simulation demo_request 0 fresh_world
      = (Ok response, after_submission demo_request fresh_world) /\
    SimulationResponse.status response = "completed".
Proof.
  apply (run_simulation_completes_when_capacity_fits demo_request 0 fresh_world).
  cbn [SimulationRequest.server_capacity demo_request]. lia.
Defined.

(** C10, as stated, fails: a capacity of [2^1024] is positive, but the
    mock's [server_capacity * 1.5] cannot convert it to a float; the
    [OverflowError] reaches the catch-all clause and the answer is the 500
    error. *)
Lemma run_simulation_huge_capacity_500 :
  0 < 2 ^ 1024 /\
  MockOutputs.init (PyInt (2 ^ 1024)) = Raise overflow /\
  fst (run_simulation
         (SimulationRequest.Build (2 ^ 1024) "Service System Demo" "Baseline")
         0 fresh_world)
    = Raise (HTTPException 500
        "Внутренняя ошибка при выполнении симуляции: int too large to convert to float").
Proof.
  split; [reflexivity|]. split; vm_compute; reflexivity.
Qed.

(** X6: for a positive capacity that the handler can print (at most 4300
    digits), the outcome is decided by that bound alone: the answer is the
    500 error made from the [OverflowError] exactly from [2^1024 - 2^970]
    on, and the five provider operations have been performed by then. *)
Lemma run_simulation_500_iff request now w :
  0 < SimulationRequest.server_capacity request < digit_cap ->
  (2 ^ 1024 - 2 ^ 970 <= SimulationRequest.server_capacity request <->
   run_simulation request now w = (Raise (run_handler overflow), after_submission request w)).
Proof.
  intros Hsc. pose proof Hsc as [Hpos Hcap].
  assert (Hiff : 2 ^ 1024 - 2 ^ 970 <= SimulationRequest.server_capacity request
                 <-> fits_float (SimulationRequest.server_capacity request) = false).
  { pose proof (fits_float_iff (SimulationRequest.server_capacity request)) as H.
    destruct (fits_float _); split; intros H'; try discriminate; try reflexivity.
    - assert (Z.abs (SimulationRequest.server_capacity request) < 2 ^ 1024 - 2 ^ 970)
        by (apply H; reflexivity). lia.
    - destruct (Z.lt_ge_cases (SimulationRequest.server_capacity request)
                              (2 ^ 1024 - 2 ^ 970)) as [Hlt|Hge]; [|exact Hge].
      assert (false = true) by (apply H; lia). discriminate. }
  rewrite Hiff. split.
  - intros Hno. rewrite (run_simulation_positive _ _ _ Hsc), MockOutputs_init_int.
    unfold fits_float in Hno.
    destruct (float_of_int _) as [f|e] eqn:E; [discriminate|].
    apply float_of_int_Raise in E. subst. reflexivity.
  - intros Hrun. destruct (fits_float _) eqn:Hfits; [exfalso|reflexivity].
    rewrite (run_simulation_positive _ _ _ Hsc) in Hrun.
    destruct (MockOutputs.init _) as [outputs|e] eqn:Hinit.
    + destruct (respond_total request now (next_sim_id w) outputs Hpos Hinit) as (r & Hr).
      cbn [rbind] in Hrun. rewrite Hr in Hrun. discriminate.
    + rewrite MockOutputs_init_int, (fits_float_Ok _ Hfits) in Hinit. discriminate.
Qed.

(** **** The model catalogue *)

Section Listing.
(** Any listing a provider might return. *)
Variable models : list MockModel.t.

Lemma collect_models_from include_versions (result : list ModelInfo.t) :
  fold_left (fun result model => result ++ [model_info include_versions model]) models result
  = result ++ map (model_info include_versions) models.
Proof.
  revert result. induction models as [|model rest IH]; intros result; cbn.
  - symmetry. apply app_nil_r.
  - rewrite IH, <- app_assoc. reflexivity.
Qed.

(** The loop of the listing handler keeps the provider's order. *)
Lemma collect_models_map include_versions :
  collect_models include_versions models = map (model_info include_versions) models.
Proof. unfold collect_models. apply collect_models_from. Qed.

Lemma model_info_id include_versions model :
  ModelInfo.id (model_info include_versions model) = MockModel.id model.
Proof.
  unfold model_info. destruct include_versions, (MockModel.latest_version model); reflexivity.
Qed.

Lemma model_info_name include_versions model :
  ModelInfo.name (model_info include_versions model) = MockModel.name model.
Proof.
  unfold model_info. destruct include_versions, (MockModel.latest_version model); reflexivity.
Qed.

(** The lookup loop is a linear search for the first model with the
    identifier. *)
Lemma scan_models_find model_id :
  scan_models model_id models
  = option_map model_detail
      (List.find (fun model => String.eqb (MockModel.id model) model_id) models).
Proof.
  induction models as [|model rest IH]; cbn; [reflexivity|].
  destruct (String.eqb (MockModel.id model) model_id); [|exact IH].
  cbn [option_map]. unfold model_detail.
  destruct (MockModel.latest_version model); reflexivity.
Qed.

Lemma scan_models_absent model_id :
  ~ In model_id (map MockModel.id models) -> scan_models model_id models = None.
Proof.
  induction models as [|model rest IH]; cbn; [reflexivity|].
  intros Hnot. destruct (String.eqb_spec (MockModel.id model) model_id) as [Heq|Hne].
  - exfalso. apply Hnot. left. exact Heq.
  - apply IH. intros Hin. apply Hnot. right. exact Hin.
Qed.

Lemma scan_models_present model :
  List.NoDup (map MockModel.id models) -> In model models ->
  scan_models (MockModel.id model) models = Some (model_detail model).
Proof.
  induction models as [|first rest IH]; cbn; [intros _ []|].
  intros Hnodup Hin. apply List.NoDup_cons_iff in Hnodup as [Hfresh Hnodup].
  destruct (String.eqb_spec (MockModel.id first) (MockModel.id model)) as [Heq|Hne].
  - destruct Hin as [-> | Hin].
    + unfold model_detail. destruct (MockModel.latest_version model); reflexivity.
    + exfalso. apply Hfresh. rewrite Heq. apply in_map. exact Hin.
  - destruct Hin as [-> | Hin]; [congruence|]. apply IH; assumption.
Qed.
End Listing.

Lemma get_models_handler_eq include_versions w :
  get_models_handler include_versions w
  = (Ok (map (model_info include_versions) MockCloudClient.models), after_listing w).
Proof.
  cbv beta iota delta [get_models_handler try_except bind get_models invoke ret].
  rewrite collect_models_map. reflexivity.
Qed.

Lemma get_model_by_id_eq model_id w :
  get_model_by_id model_id w
  = (match scan_models model_id MockCloudClient.models with
     | Some info => Ok info
     | None => Raise (not_found model_id)
     end, after_listing w).
Proof.
  cbv beta iota delta [get_model_by_id try_except bind get_models invoke ret].
  destruct (scan_models _ _); reflexivity.
Qed.

Lemma mock_model_ids_NoDup : List.NoDup (map MockModel.id MockCloudClient.models).
Proof.
  cbn. repeat (apply List.NoDup_cons; [cbn; intuition discriminate|]). apply List.NoDup_nil.
Qed.

(** C4: lookup by identifier agrees with the listing.  For every record
    of the listing, looking its identifier up succeeds with a record of
    the same identifier and name; for every identifier that is not in the
    listing, the lookup fails with the 404 error; and the lookup is the
    linear search of the whole listing for that identifier. *)
Theorem get_model_by_id_consistent_with_listing include_versions w w1 listed :
  get_models_handler include_versions w = (Ok listed, w1) ->
  (forall info, In info listed ->
     forall w2, exists found,
       get_model_by_id (ModelInfo.id info) w2 = (Ok found, after_listing w2) /\
       ModelInfo.id found = ModelInfo.id info /\
       ModelInfo.name found = ModelInfo.name info) /\
  (forall model_id, ~ In model_id (map ModelInfo.id listed) ->
     forall w2, get_model_by_id model_id w2 = (Raise (not_found model_id), after_listing w2)) /\
  (forall model_id w2,
     fst (get_model_by_id model_id w2)
     = match List.find (fun model => String.eqb (MockModel.id model) model_id)
                       MockCloudClient.models with
       | Some model => Ok (model_detail model)
       | None => Raise (not_found model_id)
       end).
Proof.
  rewrite get_models_handler_eq. intros Hlist.
  assert (Hl : listed = map (model_info include_versions) MockCloudClient.models)
    by congruence.
  clear Hlist. subst listed.
  split; [|split].
  - intros info Hin w2. apply in_map_iff in Hin as (model & <- & Hin).
    rewrite get_model_by_id_eq, model_info_id, model_info_name.
    rewrite (scan_models_present _ _ mock_model_ids_NoDup Hin).
    eexists. split; [reflexivity|]. split; reflexivity.
  - intros model_id Hnot w2. rewrite get_model_by_id_eq, scan_models_absent; [reflexivity|].
    intros Hin. apply Hnot. rewrite map_map.
    erewrite map_ext; [exact Hin|]. intros model. apply model_info_id.
  - intros model_id w2. rewrite get_model_by_id_eq, scan_models_find. cbn [fst].
    destruct (List.find _ _); reflexivity.
Qed.

Lemma get_model_by_id_consistent_with_listing_witness :
  (forall info, In info (map (model_info false) MockCloudClient.models) ->
     forall w2, exists found,
       get_model_by_id (ModelInfo.id info) w2 = (Ok found, after_listing w2) /\
       ModelInfo.id found = ModelInfo.id info /\
       ModelInfo.name found = ModelInfo.name info) /\
  (forall model_id,
     ~ In model_id (map ModelInfo.id (map (model_info false) MockCloudClient.models)) ->
     forall w2, get_model_by_id model_id w2 = (Raise (not_found model_id), after_listing w2)) /\
  (forall model_id w2,
     fst (get_model_by_id model_id w2)
     = match List.find (fun model => String.eqb (MockModel.id model) model_id)
                       MockCloudClient.models with
       | Some model => Ok (model_detail model)
       | None => Raise (not_found model_id)
       end).
Proof.
  apply (get_model_by_id_consistent_with_listing false fresh_world (after_listing fresh_world)).
  reflexivity.
Defined.

(** C6: the listing handler returns one record per model of the
    provider's listing, in the provider's order, and a second call made
    right after the first returns the same sequence. *)
Theorem get_models_order_preserving_idempotent include_versions w :
  exists listed w1,
    get_models_handler include_versions w = (Ok listed, w1) /\
    listed = map (model_info include_versions) MockCloudClient.models /\
    map ModelInfo.id listed = map MockModel.id MockCloudClient.models /\
    map ModelInfo.name listed = map MockModel.name MockCloudClient.models /\
    fst (get_models_handler include_versions w1) = Ok listed.
Proof.
  eexists _, _. split; [apply get_models_handler_eq|].
  split; [reflexivity|].
  rewrite !map_map. split; [|split].
  - apply map_ext. intros. apply model_info_id.
  - apply map_ext. intros. apply model_info_name.
  - rewrite get_models_handler_eq. reflexivity.
Qed.

End Cw3Facts.

(** ** Properties of the item service *)

Module Cw4Facts.
Import Py Cw4.

Lemma read_item_stored (db : Session) (item_id : Z) (row : Item.t) :
  rows db !! item_id = Some row -> read_item item_id db = Ok row.
Proof. intros Hrow. unfold read_item, crud.get_item. rewrite Hrow. reflexivity. Qed.

Lemma read_item_missing (db : Session) (item_id : Z) :
  rows db !! item_id = None ->
  read_item item_id db = Raise (HTTPException 404 "Item not found").
Proof. intros Hrow. unfold read_item, crud.get_item. rewrite Hrow. reflexivity. Qed.

(** C5: the item round trip, from any state of the store.  Creating
    title "A" with price 10 stores a record that [read_item] returns with
    that title and price and no description; updating only the price to 20
    leaves the title (and the description) as they were; after deleting
    the record, reading it answers 404. *)
Theorem item_round_trip (db : Session) :
  exists created db1,
    create_item (ItemCreate.Build "A" None (Some 10)) db = (Ok created, db1) /\
    read_item (Item.id created) db1
      = Ok (Item.Build (Item.id created) "A" None (Some 10)) /\
    exists updated db2,
      update_item (Item.id created) (ItemUpdate.Build None None (Some 20)) db1
        = (Ok updated, db2) /\
      read_item (Item.id created) db2
        = Ok (Item.Build (Item.id created) "A" None (Some 20)) /\
      exists db3,
        delete_item (Item.id created) db2 = (Ok "Item deleted successfully", db3) /\
        read_item (Item.id created) db3 = Raise (HTTPException 404 "Item not found").
Proof.
  eexists _, _. split; [reflexivity|]. cbn [Item.id].
  split; [apply read_item_stored; cbn [rows]; apply lookup_insert_eq|].
  unfold update_item, crud.update_item. cbn [rows next_id].
  rewrite lookup_insert_eq. cbn.
  eexists _, _. split; [reflexivity|].
  split; [apply read_item_stored; cbn [rows]; apply lookup_insert_eq|].
  unfold delete_item, crud.delete_item. cbn [rows next_id].
  rewrite lookup_insert_eq. cbn [negb].
  eexists. split; [reflexivity|].
  apply read_item_missing. cbn [rows]. apply lookup_delete_eq.
Qed.

End Cw4Facts.

(** ** More on the conversion and on the arithmetic of the mock *)

Module Binary64Shape.
Import Py Cw3 Binary64Facts.

(** The second normalisation step of [binary_round_aux] yields infinity
    or a double with a full mantissa of 53 bits, at the exponent it was
    given or, after a carry, at the next one. *)
Lemma renormalise_shape sx (m1 e' : Z) :
  2 ^ 52 <= m1 <= 2 ^ 53 -> -1074 <= e' ->
  let r := (let '(mrs'', e'') := shr_fexp prec emax m1 e' loc_Exact in
            match shr_m mrs'' with
            | Z0 => S754_zero sx
            | Zpos m => if e'' <=? emax - prec then S754_finite sx m e'' else S754_infinity sx
            | Zneg _ => S754_nan
            end) in
  r = S754_infinity sx \/
  exists m e, r = S754_finite sx m e /\ Zdigits2 (Zpos m) = 53 /\ e' <= e <= e' + 1.
Proof.
  intros Hm He. unfold shr_fexp.
  destruct (Z.ltb_spec m1 (2 ^ 53)) as [Hlt|Hge].
  - rewrite (Zdigits2_unique m1 53) by lia. rewrite fexp_normal by lia.
    replace (53 + e' - 53 - e') with 0 by lia. cbn [shr shr_record_of_loc shr_m].
    destruct m1 as [|p|p]; try lia.
    destruct (e' <=? emax - prec); [right|left; reflexivity].
    exists p, e'. split; [reflexivity|]. split; [apply Zdigits2_unique; lia | lia].
  - assert (m1 = 2 ^ 53) by lia. subst m1.
    rewrite (Zdigits2_unique (2 ^ 53) 54) by lia. rewrite fexp_normal by lia.
    replace (54 + e' - 53 - e') with 1 by lia.
    cbn [shr shr_record_of_loc SpecFloat.iter_pos].
    cbn -[Z.leb Z.add emax prec].
    destruct (e' + 1 <=? emax - prec); [right|left; reflexivity].
    eexists _, _. split; [reflexivity|]. split; [reflexivity | lia].
Qed.

(** Rounding a mantissa of at least 53 bits in the normal range keeps the
    binade or moves to the next one. *)
Lemma binary_round_aux_shape sx (M : positive) (E : Z) :
  53 <= Zdigits2 (Zpos M) -> -1021 <= Zdigits2 (Zpos M) + E ->
  binary_round_aux prec emax sx (Zpos M) E loc_Exact = S754_infinity sx \/
  exists m e,
    binary_round_aux prec emax sx (Zpos M) E loc_Exact = S754_finite sx m e /\
    Zdigits2 (Zpos m) = 53 /\
    Zdigits2 (Zpos M) + E - 53 <= e <= Zdigits2 (Zpos M) + E - 52.
Proof.
  intros HD HE. set (D := Zdigits2 (Zpos M)) in *.
  assert (Hb : 2 ^ (D - 1) <= Zpos M < 2 ^ D) by (apply Zdigits2_bounds; lia).
  remember (binary_round_aux prec emax sx (Zpos M) E loc_Exact) as R eqn:HR.
  unfold binary_round_aux in HR. unfold shr_fexp at 1 in HR. fold D in HR.
  rewrite fexp_normal in HR by lia.
  replace (D + E - 53 - E) with (D - 53) in HR by lia.
  pose proof (shr_exact (Zpos M) ltac:(lia) (D - 53) E ltac:(lia)) as Hshr.
  destruct (shr _ _ _) as [r e']. destruct Hshr as (He' & Hm & _).
  pose proof (shiftr_bounds (Zpos M) D (D - 53) ltac:(lia) ltac:(lia) Hb) as Hm'.
  rewrite <- Hm in Hm'.
  pose proof (round_nearest_even_bounds (shr_m r) (loc_of_shr_record r)) as Hm1.
  destruct (renormalise_shape sx (round_nearest_even (shr_m r) (loc_of_shr_record r)) e'
              ltac:(lia) ltac:(lia)) as [Hinf | (m & e & Hfin & Hdig & Hexp)].
  - left. rewrite HR. exact Hinf.
  - right. exists m, e. split; [rewrite HR; exact Hfin|]. split; [exact Hdig | lia].
Qed.

(** A positive integer that converts is a normal double of the integer's
    binade or, after a carry, of the next one. *)
Lemma b64_int_shape (p : positive) :
  Zpos p < 2 ^ 1024 - 2 ^ 970 ->
  exists m e,
    b64 (Zpos p) 0 = S754_finite false m e /\
    Zdigits2 (Zpos m) = 53 /\
    Zdigits2 (Zpos p) - 53 <= e <= Zdigits2 (Zpos p) - 52.
Proof.
  intros Hfit.
  assert (Hfin : is_finite (b64 (Zpos p) 0) = true).
  { rewrite <- fits_float_is_finite. apply fits_float_iff. lia. }
  revert Hfin. unfold b64, binary_normalize, binary_round, shl_align.
  change (Z.pos (digits2_pos p)) with (Zdigits2 (Zpos p)).
  set (D := Zdigits2 (Zpos p)).
  assert (HD : 0 < D) by (unfold D; cbn; lia).
  assert (Hb : 2 ^ (D - 1) <= Zpos p < 2 ^ D) by (apply Zdigits2_bounds; lia).
  rewrite fexp_normal by lia.
  destruct (D + 0 - 53 - 0) as [|k|k] eqn:Hshift.
  - intros _. rewrite binary_round_aux_53 by (fold D; lia).
    exists p, 0. split; [reflexivity|]. fold D. split; lia.
  - intros Hfin.
    destruct (binary_round_aux_shape false p 0 ltac:(fold D; lia) ltac:(fold D; lia))
      as [Hinf | (m & e & Heq & Hdig & Hexp)].
    + rewrite Hinf in Hfin. discriminate.
    + exists m, e. fold D in Hexp. split; [exact Heq|]. split; [exact Hdig | lia].
  - intros _.
    assert (Hmz : Zdigits2 (Zpos (Pos.iter xO p k)) = 53).
    { apply Zdigits2_unique; [lia|]. rewrite pos_iter_xO.
      assert (E1 : 2 ^ (53 - 1) = 2 ^ (D - 1) * 2 ^ Zpos k)
        by (rewrite <- Z.pow_add_r by lia; f_equal; lia).
      assert (E2 : 2 ^ 53 = 2 ^ D * 2 ^ Zpos k)
        by (rewrite <- Z.pow_add_r by lia; f_equal; lia).
      assert (0 < 2 ^ Zpos k) by (apply Z.pow_pos_nonneg; lia).
      rewrite E1, E2. nia. }
    rewrite binary_round_aux_53 by (try exact Hmz; lia).
    eexists _, _. split; [reflexivity|]. split; [exact Hmz | lia].
Qed.

(** Whatever is rounded with a negative sign does not compare greater
    than zero. *)
Lemma binary_round_negative_not_positive (d : positive) (e : Z) :
  lt (PyInt 0) (PyFloat (binary_round prec emax true d e)) = false.
Proof.
  unfold binary_round, binary_round_aux.
  destruct (shl_align _ _ _) as [mz ez].
  destruct (shr_fexp _ _ (Zpos mz) ez loc_Exact) as [mrs' e'].
  destruct (shr_fexp _ _ _ e' loc_Exact) as [mrs'' e''].
  destruct (shr_m mrs'') as [|m|m]; [reflexivity| |reflexivity].
  destruct (e'' <=? emax - prec); [|reflexivity].
  unfold lt, cmp, float_cmp_int. cbn [cond_Zopp].
  destruct (0 <=? e'') eqn:He; cbn [option_map].
  - assert (H : (- Zpos m * 2 ^ e'' ?= 0) = Lt).
    { apply Z.compare_lt_iff. apply Z.leb_le in He.
      assert (0 < 2 ^ e'') by (apply Z.pow_pos_nonneg; lia). nia. }
    rewrite H. reflexivity.
  - assert (H : (- Zpos m ?= 0 * 2 ^ (- e'')) = Lt)
      by (apply Z.compare_lt_iff; lia).
    rewrite H. reflexivity.
Qed.


(** A number that reaches [2^k] has more than [k] binary digits. *)
Lemma Zdigits2_lower z k : 0 <= k -> 2 ^ k <= z -> k + 1 <= Zdigits2 z.
Proof.
  intros Hk Hz.
  assert (0 < z) by (pose proof (Z.pow_pos_nonneg 2 k); lia).
  pose proof (Zdigits2_bounds z ltac:(lia)) as [_ Hup].
  destruct (Z.lt_ge_cases (Zdigits2 z) (k + 1)) as [Hlt|Hge]; [|exact Hge].
  assert (2 ^ Zdigits2 z <= 2 ^ k) by (apply Z.pow_le_mono_r; lia). lia.
Qed.

(** From capacity 16 on, [10 - capacity * 1.5] is not positive in
    binary64 either, so the queue metric is clamped to the integer 0. *)
Lemma queue_clamped_from_16 (sc : Z) :
  16 <= sc < 2 ^ 1024 - 2 ^ 970 ->
  max (PyInt 0) (PyFloat (raw_queue (b64 sc 0))) = PyInt 0.
Proof.
  intros [Hlo Hhi]. destruct sc as [|p|p]; try lia.
  destruct (b64_int_shape p Hhi) as (mx & ex & Hx & Hdx & Hex).
  pose proof (Zdigits2_lower (Zpos p) 4 ltac:(lia) ltac:(lia)) as Hdp.
  pose proof (Zdigits2_bounds (Zpos mx) ltac:(lia)) as Hmx. rewrite Hdx in Hmx.
  rewrite Hx. unfold raw_queue.
  change MockOutputs.f1_5 with (S754_finite false 6755399441055744 (-52)).
  change (b64 10 0) with (S754_finite false 5629499534213120 (-49)).
  cbn [SFmul xorb].
  pose proof (Zdigits2_lower (Zpos (mx * 6755399441055744)) 104 ltac:(lia) ltac:(lia)) as HdM.
  destruct (binary_round_aux_shape false (mx * 6755399441055744) (ex + -52)
              ltac:(lia) ltac:(lia)) as [-> | (my & ey & -> & Hdy & Hey)].
  - reflexivity.
  - pose proof (Zdigits2_bounds (Zpos my) ltac:(lia)) as Hmy. rewrite Hdy in Hmy.
    cbn [SFsub cond_Zopp].
    replace (Z.min (-49) ey) with (-49) by lia.
    unfold shl_align. replace (-49 - -49) with 0 by lia. cbn [fst].
    destruct (-49 - ey) as [|k|k] eqn:Hk; try lia. cbn [fst].
    pose proof (pos_iter_xO my k) as Hiter.
    assert (H2k : 2 <= 2 ^ Zpos k).
    { change 2 with (2 ^ 1) at 1. apply Z.pow_le_mono_r; lia. }
    destruct (Z.pos 5629499534213120 - Z.pos (Pos.iter xO my k)) as [|d|d] eqn:Hd;
      try nia.
    cbn [binary_normalize]. unfold max.
    rewrite binary_round_negative_not_positive. reflexivity.
Qed.

End Binary64Shape.

(** ** More properties of the gateway *)

Module Cw3More.
Import Py Cw3 Binary64Facts Binary64Shape Cw3Facts.

(** The queue metric as the response shows it, for every capacity: by
    evaluation below 16, by the clamp from there on. *)
Lemma queue_metric_exact (sc : Z) :
  0 < sc < 2 ^ 1024 - 2 ^ 970 ->
  exists g,
    to_float (max (PyInt 0) (PyFloat (raw_queue (b64 sc 0)))) = Ok g /\
    float_value g = Some (Qred (Z.max 0 (20 - 3 * sc) # 2)).
Proof.
  intros [Hlo Hhi]. destruct (Z.lt_ge_cases sc 16) as [Hsmall|Hbig].
  - assert (Hcases : sc = 1 \/ sc = 2 \/ sc = 3 \/ sc = 4 \/ sc = 5 \/ sc = 6 \/ sc = 7 \/
                     sc = 8 \/ sc = 9 \/ sc = 10 \/ sc = 11 \/ sc = 12 \/ sc = 13 \/
                     sc = 14 \/ sc = 15) by lia.
    repeat (destruct Hcases as [-> | Hcases]); try subst sc;
      (eexists; split; vm_compute; reflexivity).
  - rewrite queue_clamped_from_16 by lia.
    replace (Z.max 0 (20 - 3 * sc)) with 0 by lia.
    eexists. split; reflexivity.
Qed.

(** The utilization metric as the response shows it. *)
Lemma utilization_metric_exact (sc : Z) :
  0 < sc ->
  exists u,
    to_float (min (PyInt 100) (PyInt (50 + sc * 8))) = Ok u /\
    float_value u = Some (Z.min 100 (50 + 8 * sc) # 1).
Proof.
  intros Hlo. rewrite min_100_int. destruct (Z.lt_ge_cases sc 7) as [Hsmall|Hbig].
  - assert (Hcases : sc = 1 \/ sc = 2 \/ sc = 3 \/ sc = 4 \/ sc = 5 \/ sc = 6) by lia.
    repeat (destruct Hcases as [-> | Hcases]); try subst sc;
      (eexists; split; vm_compute; reflexivity).
  - replace (Z.min 100 (50 + sc * 8)) with 100 by lia.
    replace (Z.min 100 (50 + 8 * sc)) with 100 by lia.
    eexists. split; vm_compute; reflexivity.
Qed.

(** A submission whose capacity is positive and converts: the outputs the
    mock built, and the response made of them. *)
Lemma run_simulation_fits request now w :
  0 < SimulationRequest.server_capacity request < 2 ^ 1024 - 2 ^ 970 ->
  exists outputs response,
    MockOutputs.init (PyInt (SimulationRequest.server_capacity request)) = Ok outputs /\
    respond request now (next_sim_id w) outputs = Ok response /\
    run_simulation request now w = (Ok response, after_submission request w).
Proof.
  intros [Hpos Hbound].
  assert (Hfits : fits_float (SimulationRequest.server_capacity request) = true)
    by (apply fits_float_iff; lia).
  assert (Hinit : exists outputs,
             MockOutputs.init (PyInt (SimulationRequest.server_capacity request)) = Ok outputs).
  { rewrite MockOutputs_init_int, (fits_float_Ok _ Hfits). cbn [rbind]. eauto. }
  destruct Hinit as (outputs & Hinit).
  destruct (respond_total request now (next_sim_id w) outputs Hpos Hinit) as (response & Hresp).
  exists outputs, response. split; [exact Hinit|]. split; [exact Hresp|].
  assert (Hsc : 0 < SimulationRequest.server_capacity request < digit_cap)
    by (pose proof digit_cap_above_float; lia).
  rewrite (run_simulation_positive _ _ _ Hsc), Hinit. cbn [rbind]. rewrite Hresp. reflexivity.
Qed.

(** X1: for every capacity that is positive and converts to a float, the
    submission succeeds and the two metrics of the response are exactly the
    rational numbers [max(0, 10 - 1.5 * capacity)] and
    [min(100, 50 + 8 * capacity)]: binary64 rounding never shows, and from
    capacity 7 on the response says queue 0 and utilization 100. *)
Theorem run_simulation_metrics_exact request now w :
  0 < SimulationRequest.server_capacity request < 2 ^ 1024 - 2 ^ 970 ->
  exists response,
    run_simulation request now w = (Ok response, after_submission request w) /\
    float_value (SimulationResponse.mean_queue_size response)
      = Some (Qred (Z.max 0 (20 - 3 * SimulationRequest.server_capacity request) # 2)) /\
    float_value (SimulationResponse.server_utilization response)
      = Some (Z.min 100 (50 + 8 * SimulationRequest.server_capacity request) # 1).
Proof.
  intros Hsc. pose proof Hsc as [Hpos Hbound].
  destruct (run_simulation_fits request now w Hsc) as (outputs & response & Hinit & Hresp & Hrun).
  exists response. split; [exact Hrun|].
  apply respond_Ok in Hresp as (_ & _ & _ & Hq & Hu & _).
  destruct (MockOutputs_init_values _ _ Hinit) as (f & Hf & Hvq & Hvu).
  assert (Hfits : fits_float (SimulationRequest.server_capacity request) = true)
    by (apply fits_float_iff; lia).
  rewrite (fits_float_Ok _ Hfits) in Hf. injection Hf as <-.
  rewrite Hvq in Hq. rewrite Hvu in Hu.
  destruct (queue_metric_exact _ Hsc) as (g & Hg & Hgv).
  destruct (utilization_metric_exact _ Hpos) as (u & Hu' & Huv).
  rewrite Hg in Hq. rewrite Hu' in Hu. injection Hq as <-. injection Hu as <-.
  split; assumption.
Qed.

Lemma run_simulation_metrics_exact_witness :
  exists response,
    run_simulation (SimulationRequest.Build 9 "Supply Chain Demo" "Night shift") 0 fresh_world
      = (Ok response,
         after_submission (SimulationRequest.Build 9 "Supply Chain Demo" "Night shift")
                          fresh_world) /\
    float_value (SimulationResponse.mean_queue_size response) = Some (0 # 1)%Q /\
    float_value (SimulationResponse.server_utilization response) = Some (100 # 1)%Q.
Proof.
  apply (run_simulation_metrics_exact
           (SimulationRequest.Build 9 "Supply Chain Demo" "Night shift") 0 fresh_world).
  cbn [SimulationRequest.server_capacity]. lia.
Defined.

(** A handler run that returns a response had a positive capacity and went
    through the provider. *)
Lemma run_simulation_Ok_inv request now w response w' :
  run_simulation request now w = (Ok response, w') ->
  0 < SimulationRequest.server_capacity request < digit_cap /\
  w' = after_submission request w /\
  exists outputs,
    MockOutputs.init (PyInt (SimulationRequest.server_capacity request)) = Ok outputs /\
    respond request now (next_sim_id w) outputs = Ok response.
Proof.
  intros Hrun.
  destruct (Z.lt_ge_cases (Z.abs (SimulationRequest.server_capacity request)) digit_cap)
    as [Hcap|Hbig];
    [|rewrite (run_simulation_unprintable _ _ _ Hbig) in Hrun; discriminate].
  destruct (Z.lt_ge_cases 0 (SimulationRequest.server_capacity request)) as [Hpos|Hle].
  - assert (Hsc : 0 < SimulationRequest.server_capacity request < digit_cap) by lia.
    split; [exact Hsc|].
    destruct (run_simulation_outcome request now w Hsc)
      as [(outputs & response0 & Hinit & Hresp & Heq) | Heq];
      rewrite Heq in Hrun; [|discriminate].
    injection Hrun as <- <-. split; [reflexivity|]. exists outputs. split; assumption.
  - rewrite run_simulation_nonpositive in Hrun by lia. discriminate.
Qed.

(** X9: what a submission does to the client and to the log of provider
    operations, whatever its outcome: the key is kept; the counter advances
    by one and the five operations are appended exactly when the capacity
    is positive and has at most 4300 digits, also when the run then fails
    with 500; otherwise, when the check answers 400 or the first log line
    cannot print the capacity, nothing changes. *)
Theorem run_simulation_effects request now w :
  let w' := snd (run_simulation request now w) in
  let reached :=
    (0 <? SimulationRequest.server_capacity request)
    && (SimulationRequest.server_capacity request <? digit_cap) in
  MockCloudClient.api_key (client w') = MockCloudClient.api_key (client w) /\
  MockCloudClient._simulation_counter (client w')
    = MockCloudClient._simulation_counter (client w) + (if reached then 1 else 0) /\
  calls w' = calls w ++ (if reached then submission_calls request (next_sim_id w) else []).
Proof.
  cbv zeta.
  destruct (Z.ltb_spec 0 (SimulationRequest.server_capacity request)) as [Hpos|Hle];
    destruct (Z.ltb_spec (SimulationRequest.server_capacity request) digit_cap)
      as [Hcap|Hbig]; cbn [andb].
  - assert (Hw : snd (run_simulation request now w) = after_submission request w).
    { destruct (run_simulation_outcome request now w (conj Hpos Hcap))
        as [(outputs & response & _ & _ & ->) | ->]; reflexivity. }
    rewrite Hw. cbn. repeat split; reflexivity.
  - rewrite run_simulation_unprintable by lia.
    cbn [snd]. rewrite app_nil_r. repeat split; lia.
  - destruct (Z.lt_ge_cases (- digit_cap) (SimulationRequest.server_capacity request))
      as [Hlo|Hneg].
    + rewrite run_simulation_nonpositive by lia.
      cbn [snd]. rewrite app_nil_r. repeat split; lia.
    + rewrite run_simulation_unprintable by lia.
      cbn [snd]. rewrite app_nil_r. repeat split; lia.
  - pose proof digit_cap_above_float. lia.
Qed.

(** **** Simulation identifiers *)

(** The decimal numeral of a natural number is never empty. *)
Lemma digits_string (n : N) : digits n = NilEmpty.string_of_uint (N.to_uint n).
Proof.
  unfold digits, NilZero.string_of_uint. destruct n as [|p]; [reflexivity|].
  cbn [N.to_uint]. pose proof (DecimalPos.Unsigned.to_uint_nonnil p) as Hp.
  destruct (Pos.to_uint p); [contradiction | reflexivity ..].
Qed.

(** Reading a decimal numeral back: leading zeros do not count. *)
Lemma read_digits (n : N) :
  option_map N.of_uint (NilEmpty.uint_of_string (digits n)) = Some n.
Proof.
  rewrite digits_string, NilEmpty.usu. cbn [option_map].
  f_equal. apply DecimalN.Unsigned.of_to.
Qed.

Lemma read_zeros (k : nat) (s : string) :
  option_map N.of_uint (NilEmpty.uint_of_string (zeros k +:+ s))
  = option_map N.of_uint (NilEmpty.uint_of_string s).
Proof.
  induction k as [|k IH]; [reflexivity|].
  change (zeros (S k) +:+ s) with (String "0" (zeros k +:+ s)).
  cbn [NilEmpty.uint_of_string]. rewrite <- IH.
  destruct (NilEmpty.uint_of_string (zeros k +:+ s)) as [d|]; reflexivity.
Qed.

Lemma read_format_04d (n : Z) :
  option_map N.of_uint (NilEmpty.uint_of_string (format_04d n))
  = if n <? 0 then None else Some (Z.abs_N n).
Proof.
  unfold format_04d. destruct (n <? 0).
  - cbn [NilEmpty.uint_of_string].
    destruct (NilEmpty.uint_of_string _); reflexivity.
  - rewrite read_zeros. apply read_digits.
Qed.

(** [format(n, "04d")] tells integers apart. *)
Lemma format_04d_inj (a b : Z) : format_04d a = format_04d b -> a = b.
Proof.
  intros Heq.
  pose proof (read_format_04d a) as Ha. pose proof (read_format_04d b) as Hb.
  rewrite Heq in Ha. rewrite Ha in Hb. clear Ha.
  destruct (Z.ltb_spec a 0) as [Hna|Hpa], (Z.ltb_spec b 0) as [Hnb|Hpb];
    try discriminate.
  - (* both negative: compare what follows the sign *)
    unfold format_04d in Heq.
    assert (Ea : (a <? 0) = true) by (apply Z.ltb_lt; exact Hna).
    assert (Eb : (b <? 0) = true) by (apply Z.ltb_lt; exact Hnb).
    rewrite Ea, Eb in Heq. injection Heq as Heq.
    apply (f_equal (fun s => option_map N.of_uint (NilEmpty.uint_of_string s))) in Heq.
    rewrite !read_zeros, !read_digits in Heq. injection Heq as Heq. lia.
  - injection Hb as Hb. lia.
Qed.

Lemma sim_id_inj (a b : Z) : "sim_" +:+ format_04d a = "sim_" +:+ format_04d b -> a = b.
Proof. intros H. cbn in H. injection H as H. apply format_04d_inj, H. Qed.

(** X5: the identifier of a simulation determines the counter of the
    client that created it: equal identifiers come from equal counters. *)
Theorem create_simulation_ids_injective inputs1 inputs2 w1 w2 sim1 sim2 w1' w2' :
  create_simulation inputs1 w1 = (Ok sim1, w1') ->
  create_simulation inputs2 w2 = (Ok sim2, w2') ->
  MockSimulation.id sim1 = MockSimulation.id sim2 ->
  MockCloudClient._simulation_counter (client w1)
  = MockCloudClient._simulation_counter (client w2).
Proof.
  unfold create_simulation, bind, invoke. cbn [client calls].
  intros H1 H2 Hid. injection H1 as <- _. injection H2 as <- _.
  cbn [MockSimulation.id] in Hid. apply sim_id_inj in Hid. lia.
Qed.

Lemma create_simulation_ids_injective_witness :
  exists sim1 sim2 w1' w2',
    create_simulation MockInputs.init fresh_world = (Ok sim1, w1') /\
    create_simulation MockInputs.init fresh_world = (Ok sim2, w2') /\
    MockCloudClient._simulation_counter (client fresh_world)
    = MockCloudClient._simulation_counter (client fresh_world).
Proof.
  eexists _, _, _, _. split; [reflexivity|]. split; [reflexivity|].
  eapply (create_simulation_ids_injective MockInputs.init MockInputs.init
            fresh_world fresh_world); reflexivity.
Defined.

(** X4: two submissions that succeed one after the other on the same
    client get different simulation identifiers. *)
Theorem run_simulation_twice_distinct_ids request1 request2 now1 now2 w response1 w1 response2 w2 :
  run_simulation request1 now1 w = (Ok response1, w1) ->
  run_simulation request2 now2 w1 = (Ok response2, w2) ->
  SimulationResponse.simulation_id response1 <> SimulationResponse.simulation_id response2.
Proof.
  intros H1 H2.
  apply run_simulation_Ok_inv in H1 as (_ & -> & outputs1 & _ & Hr1).
  apply run_simulation_Ok_inv in H2 as (_ & _ & outputs2 & _ & Hr2).
  apply respond_Ok in Hr1 as (-> & _). apply respond_Ok in Hr2 as (-> & _).
  unfold next_sim_id, after_submission. cbn [client MockCloudClient._simulation_counter].
  intros Heq. apply sim_id_inj in Heq. lia.
Qed.

Lemma run_simulation_twice_distinct_ids_witness :
  exists response1 w1 response2 w2,
    run_simulation demo_request 0 fresh_world = (Ok response1, w1) /\
    run_simulation demo_request 1 w1 = (Ok response2, w2) /\
    SimulationResponse.simulation_id response1 <> SimulationResponse.simulation_id response2.
Proof.
  eexists _, _, _, _. split; [vm_compute; reflexivity|]. split; [vm_compute; reflexivity|].
  eapply (run_simulation_twice_distinct_ids demo_request demo_request 0 1 fresh_world);
    vm_compute; reflexivity.
Defined.

(** X3: at the route every request gets a client of its own, so every
    successful answer carries the identifier "sim_0001" and the log holds
    the five operations of that one submission. *)
Theorem post_run_success_first_id b now response performed :
  post_run b now = (Http200 response, performed) ->
  SimulationResponse.simulation_id response = "sim_0001" /\
  exists request,
    SimulationRequest.validate b = Ok request /\
    performed = submission_calls request "sim_0001".
Proof.
  unfold post_run. destruct (body_readable b); [|discriminate].
  destruct (SimulationRequest.validate b) as [request|e]; [|discriminate].
  destruct (run_simulation request now fresh_world) as [[response0|e] w] eqn:Hrun;
    [|destruct e; discriminate].
  intros H. injection H as <- <-.
  apply run_simulation_Ok_inv in Hrun as (_ & -> & outputs & _ & Hresp).
  apply respond_Ok in Hresp as (Hid & _).
  split; [exact Hid|]. exists request. split; reflexivity.
Qed.

Lemma post_run_success_first_id_witness :
  exists response performed,
    post_run (SimulationRequest.Body (Some 3) (Some "Supply Chain Demo") None) 0
      = (Http200 response, performed) /\
    SimulationResponse.simulation_id response = "sim_0001" /\
    exists request,
      SimulationRequest.validate (SimulationRequest.Body (Some 3) (Some "Supply Chain Demo") None)
        = Ok request /\
      performed = submission_calls request "sim_0001".
Proof.
  eexists _, _. split; [vm_compute; reflexivity|].
  eapply (post_run_success_first_id _ 0). vm_compute. reflexivity.
Defined.

(** X2: every answer of [POST /simulations/run] against the mock: 422
    without provider operation when the capacity is missing or not
    positive, 400 without provider operation when the capacity has more
    than 4300 digits and the body cannot be read, 200 with the capacity
    echoed and status "completed" when it is positive and below
    [2^1024 - 2^970], and 500 after the five provider operations from there
    up to the digit limit. *)
Theorem post_run_answers b now :
  match SimulationRequest.body_server_capacity b with
  | None => post_run b now = (HttpError 422 "Field required", [])
  | Some n =>
      let request :=
        {| SimulationRequest.server_capacity := n;
           SimulationRequest.model_name :=
             default "Service System Demo" (SimulationRequest.body_model_name b);
           SimulationRequest.experiment_name :=
             default "Simulation" (SimulationRequest.body_experiment_name b) |} in
      if digit_cap <=? Z.abs n then
        post_run b now = (HttpError 400 "There was an error parsing the body", [])
      else if n <=? 0 then
        post_run b now = (HttpError 422 "Input should be greater than 0", [])
      else if n <? 2 ^ 1024 - 2 ^ 970 then
        exists response,
          post_run b now = (Http200 response, submission_calls request "sim_0001") /\
          SimulationResponse.server_capacity response = n /\
          SimulationResponse.status response = "completed"
      else
        post_run b now
        = (HttpError 500
             "Внутренняя ошибка при выполнении симуляции: int too large to convert to float",
           submission_calls request "sim_0001")
  end.
Proof.
  unfold post_run, body_readable, SimulationRequest.validate.
  destruct (SimulationRequest.body_server_capacity b) as [n|]; [|reflexivity].
  cbv zeta. destruct (Z.leb_spec digit_cap (Z.abs n)) as [Hbig|Hcap]; cbn [negb];
    [reflexivity|].
  destruct (Z.leb_spec n 0) as [Hle|Hpos].
  - assert (E : (0 <? n) = false) by (apply Z.ltb_ge; exact Hle). rewrite E. reflexivity.
  - assert (E : (0 <? n) = true) by (apply Z.ltb_lt; exact Hpos). rewrite E.
    set (request := SimulationRequest.Build n _ _).
    destruct (Z.ltb_spec n (2 ^ 1024 - 2 ^ 970)) as [Hfit|Hover].
    + destruct (run_simulation_fits request now fresh_world (conj Hpos Hfit))
        as (outputs & response & _ & Hresp & ->).
      apply respond_Ok in Hresp as (_ & Hsc & Hst & _).
      exists response. split; [reflexivity|]. split; assumption.
    + assert (Hsc : 0 < SimulationRequest.server_capacity request < digit_cap)
        by (cbn [SimulationRequest.server_capacity request]; lia).
      rewrite (run_simulation_positive request now fresh_world Hsc).
      rewrite MockOutputs_init_int.
      assert (Hno : fits_float n = false).
      { destruct (fits_float n) eqn:F; [|reflexivity].
        apply fits_float_iff in F. lia. }
      unfold fits_float in Hno.
      change (SimulationRequest.server_capacity request) with n.
      destruct (float_of_int n) as [f|e] eqn:Hf; [discriminate|].
      apply float_of_int_Raise in Hf. subst e. reflexivity.
Qed.

(** A capacity of [2^1024] is answered 500 after the five operations. *)
Lemma run_simulation_500_iff_witness :
  2 ^ 1024 - 2 ^ 970 <= 2 ^ 1024 <->
  run_simulation (SimulationRequest.Build (2 ^ 1024) "Service System Demo" "Simulation")
                 0 fresh_world
  = (Raise (run_handler overflow),
     after_submission (SimulationRequest.Build (2 ^ 1024) "Service System Demo" "Simulation")
                      fresh_world).
Proof.
  apply (run_simulation_500_iff
           (SimulationRequest.Build (2 ^ 1024) "Service System Demo" "Simulation")
           0 fresh_world).
  split; [reflexivity | unfold Z.lt; vm_compute; reflexivity].
Defined.

(** X8: the raw outputs of a response hold exactly the two metric keys;
    the utilization is stored there as the integer [min(100, 50 + 8 *
    capacity)], and the two float fields of the response are the
    conversions of the two raw values. *)
Theorem run_simulation_raw_outputs request now w response w' :
  run_simulation request now w = (Ok response, w') ->
  exists q,
    SimulationResponse.raw_outputs response
    = <[key_utilization :=
          PyInt (Z.min 100 (50 + SimulationRequest.server_capacity request * 8))]>
        (<[key_queue := q]> ∅) /\
    to_float q = Ok (SimulationResponse.mean_queue_size response) /\
    float_of_int (Z.min 100 (50 + SimulationRequest.server_capacity request * 8))
    = Ok (SimulationResponse.server_utilization response).
Proof.
  intros Hrun.
  apply run_simulation_Ok_inv in Hrun as (_ & _ & outputs & Hinit & Hresp).
  apply respond_Ok in Hresp as (_ & _ & _ & Hq & Hu & Hraw).
  destruct (MockOutputs_init_values _ _ Hinit) as (f & Hf & Hvq & Hvu).
  rewrite Hvq in Hq. rewrite Hvu, min_100_int in Hu. cbn [to_float] in Hu.
  rewrite MockOutputs_init_int, Hf in Hinit. cbn [rbind] in Hinit. injection Hinit as <-.
  cbn [MockOutputs.data] in Hraw. rewrite min_100_int in Hraw.
  eexists. split; [exact Hraw|]. split; assumption.
Qed.

Lemma run_simulation_raw_outputs_witness :
  exists response w',
    run_simulation demo_request 0 fresh_world = (Ok response, w') /\
    exists q,
      SimulationResponse.raw_outputs response
      = <[key_utilization := PyInt 90]> (<[key_queue := q]> ∅) /\
      to_float q = Ok (SimulationResponse.mean_queue_size response) /\
      float_of_int 90 = Ok (SimulationResponse.server_utilization response).
Proof.
  eexists _, _. split; [vm_compute; reflexivity|].
  eapply (run_simulation_raw_outputs demo_request 0 fresh_world). vm_compute. reflexivity.
Defined.

(** **** The mock on its own *)

(** X10: the mock clamps the utilization from above only: for a capacity
    of -7 or less the metric is the negative integer [50 + 8 * capacity]. *)
Theorem MockOutputs_utilization_negative (sc : Z) (outputs : MockOutputs.t) :
  sc <= -7 ->
  MockOutputs.init (PyInt sc) = Ok outputs ->
  MockOutputs.value outputs key_utilization = PyInt (50 + sc * 8) /\
  lt (MockOutputs.value outputs key_utilization) (PyInt 0) = true.
Proof.
  intros Hsc Hinit.
  destruct (MockOutputs_init_values _ _ Hinit) as (f & _ & _ & ->).
  rewrite min_100_int. replace (Z.min 100 (50 + sc * 8)) with (50 + sc * 8) by lia.
  split; [reflexivity|]. unfold lt, cmp.
  assert (E : (50 + sc * 8 ?= 0) = Lt) by (apply Z.compare_lt_iff; lia).
  rewrite E. reflexivity.
Qed.

Lemma MockOutputs_utilization_negative_witness :
  exists outputs,
    MockOutputs.init (PyInt (-10)) = Ok outputs /\
    MockOutputs.value outputs key_utilization = PyInt (-30) /\
    lt (MockOutputs.value outputs key_utilization) (PyInt 0) = true.
Proof.
  eexists. split; [vm_compute; reflexivity|].
  apply (MockOutputs_utilization_negative (-10)); [lia | vm_compute; reflexivity].
Defined.


(** **** The catalogue *)

Section Catalogue.
(** Any listing a provider might return, identifiers repeated or not. *)
Variable models : list MockModel.t.

(** X12: for any listing, the lookup loop returns the details of the
    first model that has the identifier, also when identifiers repeat, and
    nothing exactly when no model has it. *)
Theorem scan_models_first_match (model_id : string) :
  match scan_models model_id models with
  | Some info =>
      exists before model after,
        models = before ++ model :: after /\
        MockModel.id model = model_id /\
        Forall (fun m => MockModel.id m <> model_id) before /\
        info = model_detail model
  | None => Forall (fun m => MockModel.id m <> model_id) models
  end.
Proof.
  induction models as [|first rest IH]; cbn [scan_models].
  - constructor.
  - destruct (String.eqb_spec (MockModel.id first) model_id) as [Heq|Hne].
    + exists [], first, rest. split; [reflexivity|]. split; [exact Heq|].
      split; [constructor|]. unfold model_detail.
      destruct (MockModel.latest_version first); reflexivity.
    + destruct (scan_models model_id rest) as [info|].
      * destruct IH as (before & model & after & -> & Hid & Hbefore & ->).
        exists (first :: before), model, after. split; [reflexivity|].
        split; [exact Hid|]. split; [constructor; assumption | reflexivity].
      * constructor; assumption.
Qed.

(** X13: for any listing, the loop of the listing handler with
    [include_versions] shows of each model what the lookup by identifier
    shows; without it the version name and number are absent from every
    record, and the version identifier is shown either way. *)
Theorem collect_models_versions :
  collect_models true models = map model_detail models /\
  Forall (fun info => ModelInfo.version_name info = None /\
                      ModelInfo.version_number info = None)
         (collect_models false models) /\
  map ModelInfo.latest_version_id (collect_models false models)
  = map ModelInfo.latest_version_id (collect_models true models).
Proof.
  rewrite !collect_models_map. split; [|split].
  - apply map_ext. intros model. unfold model_info, model_detail.
    destruct (MockModel.latest_version model); reflexivity.
  - apply List.Forall_forall. intros info Hin. apply in_map_iff in Hin as (model & <- & _).
    split; reflexivity.
  - rewrite !map_map. apply map_ext. intros model. unfold model_info.
    destruct (MockModel.latest_version model); reflexivity.
Qed.
End Catalogue.

(** X14: looking up the identifier of a record of the listing made with
    [include_versions] returns that very record. *)
Theorem get_model_by_id_returns_listed_record w w1 listed :
  get_models_handler true w = (Ok listed, w1) ->
  forall info, In info listed ->
  forall w2, get_model_by_id (ModelInfo.id info) w2 = (Ok info, after_listing w2).
Proof.
  rewrite get_models_handler_eq. intros Hlist.
  assert (Hl : listed = map (model_info true) MockCloudClient.models) by congruence.
  clear Hlist. subst listed. intros info Hin w2.
  apply in_map_iff in Hin as (model & <- & Hin).
  rewrite get_model_by_id_eq, model_info_id.
  rewrite (scan_models_present _ _ mock_model_ids_NoDup Hin).
  f_equal. f_equal. unfold model_info, model_detail.
  destruct (MockModel.latest_version model); reflexivity.
Qed.

Lemma get_model_by_id_returns_listed_record_witness :
  get_model_by_id "model_2" fresh_world
  = (Ok (ModelInfo.Build "model_2" "Manufacturing Line Demo" (Some "version_model_2")
           (Some "Manufacturing Line Demo") (Some 1)),
     after_listing fresh_world).
Proof.
  apply (get_model_by_id_returns_listed_record
           fresh_world (after_listing fresh_world)
           (map (model_info true) MockCloudClient.models) eq_refl
           (ModelInfo.Build "model_2" "Manufacturing Line Demo" (Some "version_model_2")
              (Some "Manufacturing Line Demo") (Some 1))).
  cbn. right. left. reflexivity.
Defined.

End Cw3More.
